(* ===================================================================== *)
(* Task manager backend (backend/server.js): a shallow embedding of the  *)
(* Express handlers, the auth middleware and the two Mongoose models,    *)
(* with the properties of the authentication / authorisation core.       *)
(* ===================================================================== *)
(* Conventions.
   - The two collections are finite maps keyed by the document's _id
     (MongoDB's primary index): gmap ObjectId User and gmap ObjectId Task.
   - Date.now() is an integer number of milliseconds (Z); every handler
     receives the instant at which it runs.
   - jsonwebtoken and bcryptjs are libraries outside the repository; they
     enter through the interfaces JwtLib and BcryptLib below.
   - A request body is modelled at the schema paths the handlers read.
     A path is absent, holds a value of the schema's type, or holds
     something Mongoose cannot cast to that type.  The email and the
     password of an auth body are a string or missing.  JSON null, update
     operators ($set, ...) and a store that is unreachable are outside
     the model.
   - process.env.JWT_SECRET is a string; the empty string stands for a
     secret that is empty or not set (both are falsy for jsonwebtoken).
   - String.prototype.trim is modelled on ASCII white space.             *)

From Stdlib Require Import ZArith String Ascii Sorted Lia.
From stdpp Require Import base option list sorting gmap strings fin_maps.

Local Open Scope string_scope.
Local Open Scope Z_scope.

(* --------------------------------------------------------------------- *)
(* 1. JavaScript strings                                                  *)
(* --------------------------------------------------------------------- *)

(* White space removed by String.prototype.trim (ASCII part):
   TAB, LF, VT, FF, CR and SPACE. *)
Definition is_ws (c : ascii) : bool :=
  let n := nat_of_ascii c in
  ((9 <=? n)%nat && (n <=? 13)%nat) || (n =? 32)%nat.

Fixpoint trimStart (s : string) : string :=
  match s with
  | EmptyString => EmptyString
  | String c s' => if is_ws c then trimStart s' else s
  end.

Fixpoint trimEnd (s : string) : string :=
  match s with
  | EmptyString => EmptyString
  | String c s' =>
      match trimEnd s' with
      | EmptyString => if is_ws c then EmptyString else String c EmptyString
      | r => String c r
      end
  end.

Definition trim (s : string) : string := trimEnd (trimStart s).

Fixpoint drop_chars (n : nat) (s : string) : string :=
  match n, s with
  | O, _ => s
  | S _, EmptyString => EmptyString
  | S n', String _ s' => drop_chars n' s'
  end.

(* s.startsWith(pat) *)
Fixpoint startsWith (pat s : string) : bool :=
  match pat, s with
  | EmptyString, _ => true
  | String _ _, EmptyString => false
  | String a pat', String b s' => Ascii.eqb a b && startsWith pat' s'
  end.

(* s.includes(pat) *)
Fixpoint includes (pat s : string) : bool :=
  startsWith pat s ||
  match s with
  | EmptyString => false
  | String _ s' => includes pat s'
  end.

(* s.replace(pat, rep) with a string pattern: only the first occurrence
   of pat is replaced; without an occurrence s is returned as it is. *)
Fixpoint js_replace (pat rep s : string) : string :=
  if startsWith pat s then String.append rep (drop_chars (String.length pat) s)
  else match s with
       | EmptyString => EmptyString
       | String c s' => String c (js_replace pat rep s')
       end.

(* !s for a string: only the empty string is falsy. *)
Definition str_falsy (s : string) : bool :=
  match s with EmptyString => true | _ => false end.

(* --------------------------------------------------------------------- *)
(* 2. Data model (section 5 of server.js)                                 *)
(* --------------------------------------------------------------------- *)

Definition ObjectId := positive.

(* UserSchema, { timestamps: true } *)
Record User := mkUser {
  email : string;
  password : string;
  user_createdAt : Z;
  user_updatedAt : Z
}.

(* TaskSchema, { timestamps: true } *)
Record Task := mkTask {
  title : string;
  completed : bool;
  user : ObjectId;
  createdAt : Z;
  updatedAt : Z
}.

Record DB := mkDB {
  users : gmap ObjectId User;
  tasks : gmap ObjectId Task;
  next_oid : ObjectId            (* source of new ObjectId() *)
}.

Definition empty_db : DB := mkDB ∅ ∅ 1%positive.

(* A schema path of a JSON body. *)
Inductive field (A : Type) : Type :=
  | Absent
  | Value (a : A)
  | Uncastable.
Arguments Absent {A}.
Arguments Value {A} a.
Arguments Uncastable {A}.

(* req.body of the two auth routes: { email, password } *)
Record AuthBody := mkAuthBody {
  body_email : option string;
  body_password : option string
}.

(* req.body of the task routes, at the paths of TaskSchema *)
Record TaskBody := mkTaskBody {
  body_title : field string;
  body_completed : field bool;
  body_user : field ObjectId
}.

(* What a handler can throw into its catch block. *)
Inductive Exn : Type :=
  | ValidationError (path : string)   (* Mongoose validator failed *)
  | CastError (path : string)         (* Mongoose could not cast a value *)
  | DuplicateKey (path : string)      (* E11000 on a unique index *)
  | IllegalArguments                  (* bcryptjs: argument is not a string *)
  | SecretMissing.                    (* jsonwebtoken: no secret to sign with *)

(* The JSON sent back. *)
Inductive Json : Type :=
  | JMessage (m : string)                      (* { message: '...' } *)
  | JErrMessage (e : Exn)                      (* { message: err.message } *)
  | JToken (t : string)                        (* { token } *)
  | JTask (id : ObjectId) (t : Task)           (* a task document *)
  | JTasks (l : list (ObjectId * Task)).       (* an array of documents *)

Record Response := mkResponse { status : Z; json : Json }.

(* res.status(n).json(j) and res.json(j) *)
Definition res_status_json (n : Z) (j : Json) : Response := mkResponse n j.
Definition res_json (j : Json) : Response := mkResponse 200 j.

(* --------------------------------------------------------------------- *)
(* 3. A handler body: state of the store plus exceptions                  *)
(* --------------------------------------------------------------------- *)

Definition M (A : Type) : Type := DB → (Exn + A) * DB.

#[export] Instance M_ret : MRet M := λ A a db, (inr a, db).
#[export] Instance M_bind : MBind M := λ A B k m db,
  match m db with
  | (inl e, db') => (inl e, db')
  | (inr a, db') => k a db'
  end.

Definition throw {A} (e : Exn) : M A := λ db, (inl e, db).

(* try { body } catch (err) { handler err } *)
Definition try_catch (body : M Response) (handler : Exn → Response)
  : DB → Response * DB :=
  fun db => match body db with
            | (inl e, db') => (handler e, db')
            | (inr r, db') => (r, db')
            end.

(* --------------------------------------------------------------------- *)
(* 4. The libraries                                                        *)
(* --------------------------------------------------------------------- *)

(* Registered claims of a token produced by this server. Times are in
   seconds since the epoch, as jsonwebtoken stores them. *)
Record Claims := mkClaims { userId : ObjectId; iat : Z; exp : Z }.

(* jsonwebtoken, reduced to the compact serialisation with its signature:
   jwt_encode c k is the signed token for the claims c under the key k,
   jwt_decode t k gives the claims of t when t is well formed and its
   signature verifies under k.  Nothing is assumed of an empty key: the
   library signs nothing with it. *)
Class JwtLib := {
  jwt_encode : Claims → string → string;
  jwt_decode : string → string → option Claims;
  jwt_decode_encode :
    ∀ c k, k ≠ EmptyString → jwt_decode (jwt_encode c k) k = Some c;
  jwt_encode_nonempty : ∀ c k, jwt_encode c k ≠ EmptyString;
  jwt_decode_empty : ∀ k, jwt_decode EmptyString k = None
}.

(* bcryptjs: hash(password, salt) and compare(password, hash). A hash is
   never the empty string (it has 60 characters). *)
Class BcryptLib := {
  bcrypt_hash_str : string → string → string;
  bcrypt_compare_str : string → string → bool;
  bcrypt_hash_nonempty : ∀ pw salt, bcrypt_hash_str pw salt ≠ EmptyString
}.

Inductive JwtError : Type := JsonWebTokenError | TokenExpiredError.

(* --------------------------------------------------------------------- *)
(* 5. Mongoose: the operations the handlers call                          *)
(* --------------------------------------------------------------------- *)

Definition advance_oid (db : DB) : DB :=
  mkDB (users db) (tasks db) (Pos.succ (next_oid db)).

(* new ObjectId(), taken when a document is constructed *)
Definition new_ObjectId : M ObjectId :=
  λ db, (inr (next_oid db), advance_oid db).

(* The documents of a collection matching a filter, in the order of the
   collection's listing. *)
Definition matching {A} (P : A → Prop) `{∀ a, Decision (P a)}
    (c : gmap ObjectId A) : list (ObjectId * A) :=
  filter (λ p, P p.2) (map_to_list c).

(* The user the filter { email } selects: the setter trim of the path
   runs on the filter value too.  A missing email is undefined in the
   filter, which the driver sends as null: no stored user has a null
   email. *)
Definition find_email (e : option string) (us : gmap ObjectId User)
    : option (ObjectId * User) :=
  match e with
  | Some e => head (matching (λ u, email u = trim e) us)
  | None => None
  end.

(* User.findOne({ email }) *)
Definition User_findOne (e : option string)
    : M (option (ObjectId * User)) :=
  λ db, (inr (find_email e (users db)), db).

(* user = new User({ email, password }); user.password = hashed;
   await user.save(): required validators on both paths, the unique index
   on email, then the insert with its timestamps. *)
Definition User_save (id : ObjectId) (e : option string) (hashed : string)
    (now : Z) : M unit :=
  match e with
  | None => throw (ValidationError "email")
  | Some e =>
      λ db,
        if str_falsy (trim e) then (inl (ValidationError "email"), db)
        else if str_falsy hashed then (inl (ValidationError "password"), db)
        else match head (matching (λ u, email u = trim e) (users db)) with
             | Some _ => (inl (DuplicateKey "email"), db)
             | None =>
                 (inr tt,
                  mkDB (<[id := mkUser (trim e) hashed now now]> (users db))
                       (tasks db) (next_oid db))
             end
  end.

(* newTask = new Task({ title, user }); await newTask.save(): title is
   cast and trimmed, completed takes its default false, title is
   required; the saved document is returned. *)
Definition Task_save (id : ObjectId) (t : field string) (uid : ObjectId)
    (now : Z) : M (ObjectId * Task) :=
  match t with
  | Value s =>
      if str_falsy (trim s) then throw (ValidationError "title")
      else λ db,
        let doc := mkTask (trim s) false uid now now in
        (inr (id, doc),
         mkDB (users db) (<[id := doc]> (tasks db)) (next_oid db))
  | Absent => throw (ValidationError "title")
  | Uncastable => throw (ValidationError "title")
  end.

(* .sort({ createdAt: -1 }) *)
Definition newer_first (a b : ObjectId * Task) : Prop :=
  createdAt b.2 ≤ createdAt a.2.

#[export] Instance newer_first_dec a b : Decision (newer_first a b).
Proof. unfold newer_first. apply _. Defined.

(* Task.find({ user }).sort({ createdAt: -1 }) *)
Definition Task_find_sorted (uid : ObjectId) : M (list (ObjectId * Task)) :=
  λ db, (inr (merge_sort newer_first
                (matching (λ t, user t = uid) (tasks db))), db).

(* Casting of an update document against TaskSchema.  The body is held
   by path, not in the order of its keys, so of several paths that fail
   to cast the one reported is the first in the order of the schema;
   the routes only distinguish that there is an error. *)
Definition cast_update (b : TaskBody) : M unit :=
  match body_title b, body_completed b, body_user b with
  | Uncastable, _, _ => throw (CastError "title")
  | _, Uncastable, _ => throw (CastError "completed")
  | _, _, Uncastable => throw (CastError "user")
  | _, _, _ => mret tt
  end.

(* runValidators: true -- the validators of the paths the update sets. *)
Definition validate_update (b : TaskBody) : M unit :=
  match body_title b with
  | Value s => if str_falsy (trim s) then throw (ValidationError "title")
               else mret tt
  | _ => mret tt
  end.

(* The error, if any, with which Mongoose rejects an update document
   before it reaches the store. *)
Definition update_error (b : TaskBody) : option Exn :=
  match (cast_update b;; validate_update b) empty_db with
  | (inl e, _) => Some e
  | (inr _, _) => None
  end.

(* The update document applied to a stored task ($set of the paths given,
   updatedAt from the timestamps option). *)
Definition apply_update (b : TaskBody) (now : Z) (t : Task) : Task :=
  mkTask (match body_title b with Value s => trim s | _ => title t end)
         (match body_completed b with Value c => c | _ => completed t end)
         (match body_user b with Value u => u | _ => user t end)
         (createdAt t)
         now.

(* The filter { _id: req.params.id, user: req.user }. The path segment
   arrives as None when it is not castable to an ObjectId. *)
Definition cast_id (id : option ObjectId) : M ObjectId :=
  match id with
  | Some i => mret i
  | None => throw (CastError "_id")
  end.

Definition find_owned (i uid : ObjectId) (db : DB) : option Task :=
  match tasks db !! i with
  | Some t => if decide (user t = uid) then Some t else None
  | None => None
  end.

(* The store's atomic find-and-modify on the filter { _id: i, user: uid } *)
Definition update_owned (i uid : ObjectId) (b : TaskBody) (now : Z)
    : M (option (ObjectId * Task)) :=
  λ db, match find_owned i uid db with
        | Some t =>
            let t' := apply_update b now t in
            (inr (Some (i, t')),
             mkDB (users db) (<[i := t']> (tasks db)) (next_oid db))
        | None => (inr None, db)
        end.

Definition delete_owned (i uid : ObjectId) : M (option (ObjectId * Task)) :=
  λ db, match find_owned i uid db with
        | Some t =>
            (inr (Some (i, t)),
             mkDB (users db) (delete i (tasks db)) (next_oid db))
        | None => (inr None, db)
        end.

(* Task.findOneAndUpdate({ _id, user }, body,
                         { new: true, runValidators: true }) *)
Definition Task_findOneAndUpdate (id : option ObjectId) (uid : ObjectId)
    (b : TaskBody) (now : Z) : M (option (ObjectId * Task)) :=
  i ← cast_id id;
  cast_update b;;
  validate_update b;;
  update_owned i uid b now.

(* Task.findOneAndDelete({ _id, user }) *)
Definition Task_findOneAndDelete (id : option ObjectId) (uid : ObjectId)
    : M (option (ObjectId * Task)) :=
  i ← cast_id id;
  delete_owned i uid.

(* --------------------------------------------------------------------- *)
(* 6. The server: middleware and routes (sections 6 and 7 of server.js)   *)
(* --------------------------------------------------------------------- *)

Section Server.
Context {jwt : JwtLib} {bcrypt : BcryptLib}.
Variable JWT_SECRET : string.          (* process.env.JWT_SECRET *)

(* bcrypt.hash(password, salt); password is undefined when the body
   has no such key, and bcryptjs rejects a non-string. *)
Definition bcrypt_hash (pw : option string) (salt : string) : M string :=
  match pw with
  | Some p => mret (bcrypt_hash_str p salt)
  | None => throw IllegalArguments
  end.

(* bcrypt.compare(password, user.password) *)
Definition bcrypt_compare (pw : option string) (hashed : string) : M bool :=
  match pw with
  | Some p => mret (bcrypt_compare_str p hashed)
  | None => throw IllegalArguments
  end.

(* The token jwt.sign({ userId }, secret, { expiresIn: '1h' }) builds at
   the instant now: iat is the current second, exp is 3600 seconds
   later. *)
Definition jwt_token (uid : ObjectId) (secret : string) (now : Z) : string :=
  jwt_encode (mkClaims uid (now / 1000) (now / 1000 + 3600)) secret.

(* jwt.sign({ userId }, secret, { expiresIn: '1h' }): it throws when the
   secret is empty or not set. *)
Definition jwt_sign (uid : ObjectId) (secret : string) (now : Z) : M string :=
  if str_falsy secret then throw SecretMissing
  else mret (jwt_token uid secret now).

(* jwt.verify(token, secret) at the instant now: the signature first,
   then the expiry (expired as soon as the current second reaches exp). *)
Definition jwt_verify (token secret : string) (now : Z)
    : JwtError + Claims :=
  match jwt_decode token secret with
  | None => inl JsonWebTokenError
  | Some c => if exp c <=? now / 1000 then inl TokenExpiredError
              else inr c
  end.

(* !authHeader: req.header gives undefined for a missing header *)
Definition header_falsy (authHeader : option string) : bool :=
  match authHeader with
  | None => true
  | Some h => str_falsy h
  end.

(* authMiddleware: inl is the response sent by the middleware itself,
   inr is next() with req.user set. *)
Definition authMiddleware (authHeader : option string) (now : Z)
    : Response + ObjectId :=
  match authHeader with
  | None =>
      inl (res_status_json 401 (JMessage "Authorization header missing"))
  | Some h =>
      if str_falsy h then
        inl (res_status_json 401 (JMessage "Authorization header missing"))
      else
        let token := js_replace "Bearer " "" h in
        if str_falsy token then
          inl (res_status_json 401
                 (JMessage "No token, authorization denied"))
        else
          match jwt_verify token JWT_SECRET now with
          | inr decoded => inr (userId decoded)
          | inl _ => inl (res_status_json 401 (JMessage "Token is not valid"))
          end
  end.

(* POST /api/auth/register *)
Definition post_auth_register (now : Z) (salt : string) (b : AuthBody)
    : DB → Response * DB :=
  try_catch
    (found ← User_findOne (body_email b);
     match found with
     | Some _ =>
         mret (res_status_json 400 (JMessage "User already exists"))
     | None =>
         id ← new_ObjectId;
         hashed ← bcrypt_hash (body_password b) salt;
         User_save id (body_email b) hashed now;;
         token ← jwt_sign id JWT_SECRET now;
         mret (res_status_json 201 (JToken token))
     end)
    (λ _, res_status_json 500
            (JMessage "Server error during registration")).

(* POST /api/auth/login *)
Definition post_auth_login (now : Z) (b : AuthBody) : DB → Response * DB :=
  try_catch
    (found ← User_findOne (body_email b);
     match found with
     | None => mret (res_status_json 400 (JMessage "Invalid Credentials"))
     | Some (id, u) =>
         isMatch ← bcrypt_compare (body_password b) (password u);
         if isMatch : bool then
           token ← jwt_sign id JWT_SECRET now;
           mret (res_json (JToken token))
         else
           mret (res_status_json 400 (JMessage "Invalid Credentials"))
     end)
    (λ _, res_status_json 500 (JMessage "Server error during login")).

(* GET /api/tasks, after the middleware.  With the store reachable and
   req.user an id, Task.find does not throw: the catch block is there
   for a failing store, which is outside the model. *)
Definition get_tasks (req_user : ObjectId) : DB → Response * DB :=
  try_catch
    (found ← Task_find_sorted req_user;
     mret (res_json (JTasks found)))
    (λ _, res_status_json 500 (JMessage "Error fetching tasks")).

(* POST /api/tasks, after the middleware *)
Definition post_tasks (req_user : ObjectId) (now : Z) (b : TaskBody)
    : DB → Response * DB :=
  try_catch
    (id ← new_ObjectId;
     '(i, task) ← Task_save id (body_title b) req_user now;
     mret (res_status_json 201 (JTask i task)))
    (λ err, res_status_json 400 (JErrMessage err)).

(* PATCH /api/tasks/:id, after the middleware *)
Definition patch_tasks_id (req_user : ObjectId) (now : Z)
    (id : option ObjectId) (b : TaskBody) : DB → Response * DB :=
  try_catch
    (found ← Task_findOneAndUpdate id req_user b now;
     match found with
     | None =>
         mret (res_status_json 404
                 (JMessage "Task not found or unauthorized"))
     | Some (i, task) => mret (res_json (JTask i task))
     end)
    (λ err, res_status_json 400 (JErrMessage err)).

(* DELETE /api/tasks/:id, after the middleware *)
Definition delete_tasks_id (req_user : ObjectId) (id : option ObjectId)
    : DB → Response * DB :=
  try_catch
    (found ← Task_findOneAndDelete id req_user;
     match found with
     | None =>
         mret (res_status_json 404
                 (JMessage "Task not found or unauthorized"))
     | Some _ => mret (res_json (JMessage "Task deleted successfully"))
     end)
    (λ err, res_status_json 500 (JErrMessage err)).

(* A request as the router sees it. *)
Inductive Request : Type :=
  | PostAuthRegister (salt : string) (b : AuthBody)
  | PostAuthLogin (b : AuthBody)
  | GetTasks (authorization : option string)
  | PostTasks (authorization : option string) (b : TaskBody)
  | PatchTasksId (authorization : option string) (id : option ObjectId)
                 (b : TaskBody)
  | DeleteTasksId (authorization : option string) (id : option ObjectId).

(* app.METHOD(path, authMiddleware, handler) *)
Definition protected (authorization : option string) (now : Z)
    (handler : ObjectId → DB → Response * DB) : DB → Response * DB :=
  λ db, match authMiddleware authorization now with
        | inl r => (r, db)
        | inr req_user => handler req_user db
        end.

(* One request served at the instant now. *)
Definition app (now : Z) (r : Request) : DB → Response * DB :=
  match r with
  | PostAuthRegister salt b => post_auth_register now salt b
  | PostAuthLogin b => post_auth_login now b
  | GetTasks a => protected a now get_tasks
  | PostTasks a b => protected a now (λ u, post_tasks u now b)
  | PatchTasksId a id b => protected a now (λ u, patch_tasks_id u now id b)
  | DeleteTasksId a id => protected a now (λ u, delete_tasks_id u id)
  end.

(* A sequence of requests, each with the instant it is served at. *)
Fixpoint serve (rs : list (Z * Request)) (db : DB) : DB :=
  match rs with
  | [] => db
  | (now, r) :: rs' => serve rs' (app now r db).2
  end.

End Server.

(* Every stored _id was handed out by new_ObjectId before. *)
Definition fresh_oid (db : DB) : Prop :=
  (∀ i u, users db !! i = Some u → (i < next_oid db)%positive) ∧
  (∀ i t, tasks db !! i = Some t → (i < next_oid db)%positive).

(* The unique index on the path email, as a property of the collection. *)
Definition unique_emails (us : gmap ObjectId User) : Prop :=
  ∀ i j u v, us !! i = Some u → us !! j = Some v → email u = email v → i = j.

(* The Authorization header of a request to a route behind the guard. *)
Definition authorization (r : Request) : option (option string) :=
  match r with
  | PostAuthRegister _ _ | PostAuthLogin _ => None
  | GetTasks a | PostTasks a _ | PatchTasksId a _ _ | DeleteTasksId a _ =>
      Some a
  end.


(* --------------------------------------------------------------------- *)
(* 7. The client: the React component App                                 *)
(* --------------------------------------------------------------------- *)
(* The component's state after React has applied the pending updates,
   and its event handlers run against the server above, one handler to
   completion before the next event.  Rendering is not modelled.  Each
   handler receives the instants at which the server serves its
   requests (and, for a registration, the salt bcrypt draws).  A request
   that gets no answer is modelled for handleAuthSubmit, the one handler
   that shows such a failure; the task handlers only log it. *)

Module App.

(* useState({ email: '', password: '' }) *)
Record AuthData := mkAuthData { email : string; password : string }.

Record State := mkState {
  token : option string;            (* null is None *)
  isLoginView : bool;
  authData : AuthData;
  tasks : Json;                     (* what setTasks was last given *)
  newTaskTitle : string;
  authError : string;
  localStorage_token : option string
}.

(* The name attribute of the two inputs of the auth form. *)
Inductive InputName : Type := name_email | name_password.

(* What becomes of a request of handleAuthSubmit: the server answers it;
   or it never reaches the server; or the server serves it and the
   answer gets lost.  In the last two cases axios rejects with an error
   that has no response. *)
Inductive Network : Type := Answered | NotDelivered | AnswerLost.

Definition setToken (v : option string) (c : State) : State :=
  mkState v (isLoginView c) (authData c) (tasks c) (newTaskTitle c)
          (authError c) (localStorage_token c).
Definition setIsLoginView (v : bool) (c : State) : State :=
  mkState (token c) v (authData c) (tasks c) (newTaskTitle c)
          (authError c) (localStorage_token c).
Definition setAuthData (v : AuthData) (c : State) : State :=
  mkState (token c) (isLoginView c) v (tasks c) (newTaskTitle c)
          (authError c) (localStorage_token c).
Definition setTasks (v : Json) (c : State) : State :=
  mkState (token c) (isLoginView c) (authData c) v (newTaskTitle c)
          (authError c) (localStorage_token c).
Definition setNewTaskTitle (v : string) (c : State) : State :=
  mkState (token c) (isLoginView c) (authData c) (tasks c) v
          (authError c) (localStorage_token c).
Definition setAuthError (v : string) (c : State) : State :=
  mkState (token c) (isLoginView c) (authData c) (tasks c) (newTaskTitle c)
          v (localStorage_token c).
Definition localStorage_set (v : option string) (c : State) : State :=
  mkState (token c) (isLoginView c) (authData c) (tasks c) (newTaskTitle c)
          (authError c) v.

(* axios resolves on a 2xx status and rejects on any other. *)
Definition axios_ok (r : Response) : bool :=
  (200 <=? status r) && (status r <? 300).

(* The first render: useState(localStorage.getItem('token') || null) *)
Definition initial (stored : option string) : State :=
  mkState (match stored with
           | Some t => if str_falsy t then None else Some t
           | None => None
           end)
          true (mkAuthData "" "") (JTasks []) "" "" stored.

(* getConfig: { headers: { Authorization: `Bearer ${token}` } } *)
Definition getConfig (c : State) : option string :=
  Some (String.append "Bearer "
          (match token c with Some t => t | None => "null" end)).

(* handleAuthChange: setAuthData({ ...authData, [name]: value }) *)
Definition handleAuthChange (name : InputName) (value : string) (c : State)
    : State :=
  setAuthError ""
    (setAuthData
       (match name with
        | name_email => mkAuthData value (password (authData c))
        | name_password => mkAuthData (email (authData c)) value
        end) c).

(* handleLogout *)
Definition handleLogout (c : State) : State :=
  setTasks (JTasks []) (setToken None (localStorage_set None c)).

Section Component.
Context {jwt : JwtLib} {bcrypt : BcryptLib}.
Variable JWT_SECRET : string.          (* the secret of the server *)
Variable err_message : Exn → string.   (* the text of err.message *)

(* error.response?.data?.message || 'Authentication failed.', where
   error.response is missing when no answer arrived *)
Definition failure_message (response : option Response) : string :=
  let message :=
    match response with
    | Some r =>
        match json r with
        | JMessage m => Some m
        | JErrMessage e => Some (err_message e)
        | _ => None
        end
    | None => None
    end in
  match message with
  | Some m => if str_falsy m then "Authentication failed." else m
  | None => "Authentication failed."
  end.

(* handleAuthSubmit *)
Definition handleAuthSubmit (net : Network) (now : Z) (salt : string)
    (w : State * DB) : State * DB :=
  let '(c, db) := w in
  let body := mkAuthBody (Some (email (authData c)))
                         (Some (password (authData c))) in
  let request := if isLoginView c then PostAuthLogin body
                 else PostAuthRegister salt body in
  let c := setAuthError "" c in
  match net with
  | NotDelivered => (setAuthError (failure_message None) c, db)
  | AnswerLost =>
      (setAuthError (failure_message None) c,
       (app JWT_SECRET now request db).2)
  | Answered =>
      let '(r, db') := app JWT_SECRET now request db in
      if axios_ok r then
        let newToken :=
          match json r with JToken t => Some t | _ => None end in
        let stored :=
          match newToken with Some t => t | None => "undefined" end in
        (setAuthData (mkAuthData "" "")
           (setToken newToken (localStorage_set (Some stored) c)), db')
      else
        (setAuthError (failure_message (Some r)) c, db')
  end.

(* fetchTasks *)
Definition fetchTasks (now : Z) (w : State * DB) : State * DB :=
  let '(c, db) := w in
  match token c with
  | None => (c, db)
  | Some t =>
      if str_falsy t then (c, db)
      else
        let '(r, db') := app JWT_SECRET now (GetTasks (getConfig c)) db in
        if axios_ok r then (setTasks (json r) c, db')
        else if status r =? 401 then (handleLogout c, db')
        else (c, db')
  end.

(* addTask; now' is the instant of the refresh *)
Definition addTask (now now' : Z) (w : State * DB) : State * DB :=
  let '(c, db) := w in
  if str_falsy (trim (newTaskTitle c)) then (c, db)
  else
    let '(r, db') :=
      app JWT_SECRET now
        (PostTasks (getConfig c)
           (mkTaskBody (Value (newTaskTitle c)) Absent Absent)) db in
    if axios_ok r then fetchTasks now' (setNewTaskTitle "" c, db')
    else (c, db').

(* toggleTask(id, completed) *)
Definition toggleTask (now now' : Z) (id : ObjectId) (done : bool)
    (w : State * DB) : State * DB :=
  let '(c, db) := w in
  let '(r, db') :=
    app JWT_SECRET now
      (PatchTasksId (getConfig c) (Some id)
         (mkTaskBody Absent (Value (negb done)) Absent)) db in
  if axios_ok r then fetchTasks now' (c, db') else (c, db').

(* deleteTask(id) *)
Definition deleteTask (now now' : Z) (id : ObjectId) (w : State * DB)
    : State * DB :=
  let '(c, db) := w in
  let '(r, db') :=
    app JWT_SECRET now (DeleteTasksId (getConfig c) (Some id)) db in
  if axios_ok r then fetchTasks now' (c, db') else (c, db').

(* useEffect(() => { if (token) fetchTasks(); }, [token]) after a handler
   that took the state from before to w: it runs when the token changed. *)
Definition useEffect_token (before : State) (now : Z) (w : State * DB)
    : State * DB :=
  if decide (token w.1 = token before) then w else fetchTasks now w.

End Component.
End App.

(* --------------------------------------------------------------------- *)
(* 8. A reference instance of the two libraries                           *)
(* --------------------------------------------------------------------- *)
(* A small self-delimiting codec for the claims stands in for the base64
   JSON of a real token, and a keyed tag for its HMAC; the concrete runs
   of the server below use it. *)

Fixpoint enc_pos (p : positive) : string :=
  match p with
  | xI q => String "1" (enc_pos q)
  | xO q => String "0" (enc_pos q)
  | xH => String "." EmptyString
  end.

Fixpoint dec_pos (s : string) : option (positive * string) :=
  match s with
  | String "1" r => match dec_pos r with
                    | Some (q, r') => Some (xI q, r')
                    | None => None
                    end
  | String "0" r => match dec_pos r with
                    | Some (q, r') => Some (xO q, r')
                    | None => None
                    end
  | String "." r => Some (xH, r)
  | _ => None
  end.

Definition enc_Z (z : Z) : string :=
  match z with
  | Z0 => String "z" EmptyString
  | Zpos p => String "+" (enc_pos p)
  | Zneg p => String "-" (enc_pos p)
  end.

Definition dec_Z (s : string) : option (Z * string) :=
  match s with
  | String "z" r => Some (Z0, r)
  | String "+" r => match dec_pos r with
                    | Some (p, r') => Some (Zpos p, r')
                    | None => None
                    end
  | String "-" r => match dec_pos r with
                    | Some (p, r') => Some (Zneg p, r')
                    | None => None
                    end
  | _ => None
  end.

Definition enc_claims (c : Claims) : string :=
  String.append (enc_pos (userId c))
    (String.append (enc_Z (iat c)) (enc_Z (exp c))).

(* the keyed tag over the encoded claims *)
Definition ref_mac (k m : string) : string :=
  String.append k (String.append "/" m).

Definition ref_jwt_encode (c : Claims) (k : string) : string :=
  String.append (enc_claims c) (ref_mac k (enc_claims c)).

Definition ref_jwt_decode (t k : string) : option Claims :=
  match dec_pos t with
  | Some (u, r1) =>
      match dec_Z r1 with
      | Some (i, r2) =>
          match dec_Z r2 with
          | Some (e, sig) =>
              let c := mkClaims u i e in
              if String.eqb sig (ref_mac k (enc_claims c)) then Some c
              else None
          | None => None
          end
      | None => None
      end
  | None => None
  end.

(* "$" salt "$" password stands in for the bcrypt hash. *)
Definition ref_hash (pw salt : string) : string :=
  String "$" (String.append salt (String "$" pw)).

Fixpoint after_dollar (s : string) : string :=
  match s with
  | EmptyString => EmptyString
  | String "$" r => r
  | String _ r => after_dollar r
  end.

Definition ref_compare (pw hashed : string) : bool :=
  match hashed with
  | String "$" r => String.eqb (after_dollar r) pw
  | _ => false
  end.

(* ===================================================================== *)
(*                              Properties                                *)
(* ===================================================================== *)

Lemma append_cons (a : ascii) (s r : string) :
  String.append (String a s) r = String a (String.append s r).
Proof. reflexivity. Qed.

Lemma append_assoc (a b c : string) :
  String.append (String.append a b) c = String.append a (String.append b c).
Proof.
  induction a as [|x a IH]; [done|]. by rewrite !append_cons, IH.
Qed.

Lemma dec_enc_pos (p : positive) (r : string) :
  dec_pos (String.append (enc_pos p) r) = Some (p, r).
Proof.
  induction p as [q IH|q IH|]; simpl; by rewrite ?IH.
Qed.

Lemma dec_enc_Z (z : Z) (r : string) :
  dec_Z (String.append (enc_Z z) r) = Some (z, r).
Proof.
  destruct z; simpl; by rewrite ?dec_enc_pos.
Qed.

Lemma ref_decode_encode (c : Claims) (k : string) :
  ref_jwt_decode (ref_jwt_encode c k) k = Some c.
Proof.
  destruct c as [u i e]. unfold ref_jwt_decode, ref_jwt_encode, enc_claims.
  simpl. rewrite !append_assoc, dec_enc_pos, dec_enc_Z, dec_enc_Z.
  by rewrite String.eqb_refl.
Qed.

Lemma ref_encode_nonempty (c : Claims) (k : string) :
  ref_jwt_encode c k ≠ EmptyString.
Proof.
  destruct c as [u i e]. unfold ref_jwt_encode, enc_claims. simpl.
  by destruct u.
Qed.

#[export] Instance ref_jwt : JwtLib := {|
  jwt_encode := ref_jwt_encode;
  jwt_decode := ref_jwt_decode;
  jwt_decode_encode := λ c k _, ref_decode_encode c k;
  jwt_encode_nonempty := ref_encode_nonempty;
  jwt_decode_empty := λ _, eq_refl
|}.

#[export] Instance ref_bcrypt : BcryptLib := {|
  bcrypt_hash_str := ref_hash;
  bcrypt_compare_str := ref_compare;
  bcrypt_hash_nonempty := λ pw salt, ltac:(done)
|}.

(* A small store for the concrete runs: Ann (id 1) and Bob (id 2) have
   registered, and Ann has created the task "Buy milk" (id 3). *)
Definition demo_secret : string := "s3cret".

Definition bearer (token : string) : option string :=
  Some (String.append "Bearer " token).

Definition ann_token : string := jwt_token 1%positive demo_secret 0.
Definition bob_token : string := jwt_token 2%positive demo_secret 1000.

Definition demo_requests : list (Z * Request) :=
  [ (0,
     PostAuthRegister "salt1"
       (mkAuthBody (Some "ann@example.org") (Some "pw1")));
    (1000,
     PostAuthRegister "salt2"
       (mkAuthBody (Some "bob@example.org") (Some "pw2")));
    (2000,
     PostTasks (bearer ann_token) (mkTaskBody (Value "Buy milk") Absent Absent))
  ].

Definition demo_db : DB := serve demo_secret demo_requests empty_db.

Definition ann : User := mkUser "ann@example.org" "$salt1$pw1" 0 0.
Definition buy_milk : Task := mkTask "Buy milk" false 1%positive 2000 2000.

(* Carl, who has not registered yet, and two states of the client: Ann
   logged in, and the login form filled in with Ann's credentials. *)
Definition carl_body : AuthBody :=
  mkAuthBody (Some "carl@example.org") (Some "pw3").
Definition carl : User := mkUser "carl@example.org" "$salt3$pw3" 5000 5000.

Definition demo_err_message (e : Exn) : string := "request failed".

Definition ann_client : App.State :=
  App.mkState (Some ann_token) true (App.mkAuthData "" "") (JTasks [])
    "" "" (Some ann_token).

Definition ann_login_form : App.State :=
  App.handleAuthChange App.name_password "pw1"
    (App.handleAuthChange App.name_email "ann@example.org"
       (App.initial None)).

(* --------------------------------------------------------------------- *)
(* Strings                                                                *)
(* --------------------------------------------------------------------- *)

Lemma str_falsy_true (s : string) : str_falsy s = true ↔ s = EmptyString.
Proof. by destruct s. Qed.

Lemma str_falsy_false (s : string) : str_falsy s = false ↔ s ≠ EmptyString.
Proof. by destruct s. Qed.

Lemma js_replace_Bearer (t : string) :
  js_replace "Bearer " "" (String.append "Bearer " t) = t.
Proof. reflexivity. Qed.

Lemma js_replace_absent (pat rep s : string) :
  includes pat s = false → js_replace pat rep s = s.
Proof.
  induction s as [|c s IH]; simpl; intros [Hp Hi]%orb_false_iff;
    rewrite Hp; [done|]. by rewrite IH.
Qed.

(* --------------------------------------------------------------------- *)
(* The handler monad                                                      *)
(* --------------------------------------------------------------------- *)

Lemma bind_run {A B} (m : M A) (k : A → M B) (db : DB) :
  (m ≫= k) db = match m db with
                | (inl e, db') => (inl e, db')
                | (inr a, db') => k a db'
                end.
Proof. reflexivity. Qed.

(* --------------------------------------------------------------------- *)
(* Filters over a collection                                              *)
(* --------------------------------------------------------------------- *)

Lemma elem_of_matching {A} (P : A → Prop) `{∀ a, Decision (P a)}
    (c : gmap ObjectId A) (i : ObjectId) (a : A) :
  (i, a) ∈ matching P c ↔ c !! i = Some a ∧ P a.
Proof.
  unfold matching. rewrite list_elem_of_filter, elem_of_map_to_list.
  simpl. tauto.
Qed.

Lemma NoDup_matching {A} (P : A → Prop) `{∀ a, Decision (P a)}
    (c : gmap ObjectId A) : NoDup (matching P c).
Proof. apply NoDup_filter, NoDup_map_to_list. Qed.

Lemma head_matching_None {A} (P : A → Prop) `{∀ a, Decision (P a)}
    (c : gmap ObjectId A) :
  head (matching P c) = None ↔ ∀ i a, c !! i = Some a → ¬ P a.
Proof.
  rewrite head_None. split.
  - intros Hnil i a Hi HP.
    assert (Hin : (i, a) ∈ matching P c) by by apply elem_of_matching.
    rewrite Hnil in Hin. by apply elem_of_nil in Hin.
  - intros Hall. destruct (matching P c) as [|[i a] l] eqn:E; [done|].
    assert (Hin : (i, a) ∈ matching P c) by (rewrite E; left).
    apply elem_of_matching in Hin as [Hi HP]. by destruct (Hall i a).
Qed.

Lemma head_matching_Some {A} (P : A → Prop) `{∀ a, Decision (P a)}
    (c : gmap ObjectId A) (i : ObjectId) (a : A) :
  head (matching P c) = Some (i, a) → c !! i = Some a ∧ P a.
Proof.
  intros Hh%head_Some_elem_of. by apply elem_of_matching in Hh.
Qed.

Section Properties.
Context {jwt : JwtLib} {bcrypt : BcryptLib}.
Variable JWT_SECRET : string.

(* --------------------------------------------------------------------- *)
(* The access guard                                                       *)
(* --------------------------------------------------------------------- *)

Lemma jwt_verify_inr (token : string) (now : Z) (c : Claims) :
  jwt_verify token JWT_SECRET now = inr c ↔
  jwt_decode token JWT_SECRET = Some c ∧ now / 1000 < exp c.
Proof.
  unfold jwt_verify. destruct (jwt_decode token JWT_SECRET) as [d|].
  2: { split; [done|]. by intros [? _]. }
  destruct (Z.leb_spec (exp d) (now / 1000)); split.
  - done.
  - intros [[= ->] ?]. lia.
  - by intros [= ->].
  - by intros [[= ->] ?].
Qed.

Lemma jwt_verify_sign (uid : ObjectId) (t now : Z) :
  JWT_SECRET ≠ EmptyString →
  jwt_verify (jwt_token uid JWT_SECRET t) JWT_SECRET now =
  if t / 1000 + 3600 <=? now / 1000 then inl TokenExpiredError
  else inr (mkClaims uid (t / 1000) (t / 1000 + 3600)).
Proof.
  intros Hkey. unfold jwt_verify, jwt_token.
  by rewrite jwt_decode_encode.
Qed.

Lemma jwt_sign_run {A} (uid : ObjectId) (now : Z) (k : string → M A)
    (db : DB) :
  (jwt_sign uid JWT_SECRET now ≫= k) db =
  if str_falsy JWT_SECRET then (inl SecretMissing, db)
  else k (jwt_token uid JWT_SECRET now) db.
Proof. unfold jwt_sign. rewrite bind_run. by destruct (str_falsy _). Qed.

Lemma authMiddleware_Bearer (token : string) (now : Z) :
  authMiddleware JWT_SECRET (Some (String.append "Bearer " token)) now =
  if str_falsy token then
    inl (res_status_json 401 (JMessage "No token, authorization denied"))
  else match jwt_verify token JWT_SECRET now with
       | inr decoded => inr (userId decoded)
       | inl _ => inl (res_status_json 401 (JMessage "Token is not valid"))
       end.
Proof. reflexivity. Qed.

Lemma authMiddleware_Bearer_inr (token : string) (now : Z) (uid : ObjectId) :
  authMiddleware JWT_SECRET (Some (String.append "Bearer " token)) now
    = inr uid ↔
  ∃ c, jwt_decode token JWT_SECRET = Some c ∧ now / 1000 < exp c
       ∧ userId c = uid.
Proof.
  rewrite authMiddleware_Bearer. destruct token as [|a token]; simpl.
  - split; [done|]. intros (c & Hc & _).
    by rewrite jwt_decode_empty in Hc.
  - destruct (jwt_verify (String a token) JWT_SECRET now) as [e|d] eqn:E.
    + split; [done|]. intros (c & Hc & Hlt & _).
      assert (jwt_verify (String a token) JWT_SECRET now = inr c)
        by by apply jwt_verify_inr.
      congruence.
    + apply jwt_verify_inr in E as [Hd Hlt]. split.
      * intros [= <-]. eauto.
      * intros (c & Hc & _ & <-). congruence.
Qed.

(* --------------------------------------------------------------------- *)
(* What each route computes                                               *)
(* --------------------------------------------------------------------- *)

Lemma post_auth_register_run (now : Z) (salt : string) (b : AuthBody)
    (db : DB) :
  post_auth_register JWT_SECRET now salt b db =
  match find_email (body_email b) (users db) with
  | Some _ => (res_status_json 400 (JMessage "User already exists"), db)
  | None =>
      match body_password b, body_email b with
      | Some pw, Some e =>
          if str_falsy (trim e) then
            (res_status_json 500
               (JMessage "Server error during registration"), advance_oid db)
          else
            (if str_falsy JWT_SECRET then
               res_status_json 500
                 (JMessage "Server error during registration")
             else
               res_status_json 201
                 (JToken (jwt_token (next_oid db) JWT_SECRET now)),
             mkDB (<[next_oid db :=
                       mkUser (trim e) (bcrypt_hash_str pw salt) now now]>
                     (users db))
                  (tasks db) (Pos.succ (next_oid db)))
      | _, _ =>
          (res_status_json 500
             (JMessage "Server error during registration"), advance_oid db)
      end
  end.
Proof.
  unfold post_auth_register, try_catch. rewrite bind_run.
  unfold User_findOne.
  destruct (find_email _ _) as [[i u]|] eqn:E; [done|].
  rewrite bind_run. unfold new_ObjectId. rewrite bind_run.
  destruct (body_password b) as [pw|]; simpl;
    [|by destruct (body_email b)].
  destruct (body_email b) as [e|]; [|done].
  rewrite bind_run. unfold User_save. simpl.
  destruct (str_falsy (trim e)); [done|].
  pose proof (bcrypt_hash_nonempty pw salt) as Hne.
  apply str_falsy_false in Hne. simpl in E. rewrite Hne, E.
  rewrite jwt_sign_run. by destruct (str_falsy JWT_SECRET).
Qed.

Lemma post_auth_login_run (now : Z) (b : AuthBody) (db : DB) :
  post_auth_login JWT_SECRET now b db =
  match find_email (body_email b) (users db) with
  | None => (res_status_json 400 (JMessage "Invalid Credentials"), db)
  | Some (id, u) =>
      match body_password b with
      | Some pw =>
          if bcrypt_compare_str pw (password u) then
            if str_falsy JWT_SECRET then
              (res_status_json 500 (JMessage "Server error during login"),
               db)
            else (res_json (JToken (jwt_token id JWT_SECRET now)), db)
          else (res_status_json 400 (JMessage "Invalid Credentials"), db)
      | None =>
          (res_status_json 500 (JMessage "Server error during login"), db)
      end
  end.
Proof.
  unfold post_auth_login, try_catch. rewrite bind_run. unfold User_findOne.
  destruct (find_email _ _) as [[i u]|]; [|done].
  rewrite bind_run. destruct (body_password b) as [pw|]; simpl; [|done].
  destruct (bcrypt_compare_str pw (password u)); [|done].
  rewrite jwt_sign_run. by destruct (str_falsy JWT_SECRET).
Qed.

Lemma get_tasks_run (uid : ObjectId) (db : DB) :
  get_tasks uid db =
  (res_json (JTasks (merge_sort newer_first
                       (matching (λ t, user t = uid) (tasks db)))), db).
Proof. reflexivity. Qed.

Lemma post_tasks_run (uid : ObjectId) (now : Z) (b : TaskBody) (db : DB) :
  post_tasks uid now b db =
  match body_title b with
  | Value s =>
      if str_falsy (trim s) then
        (res_status_json 400 (JErrMessage (ValidationError "title")),
         advance_oid db)
      else
        let doc := mkTask (trim s) false uid now now in
        (res_status_json 201 (JTask (next_oid db) doc),
         mkDB (users db) (<[next_oid db := doc]> (tasks db))
              (Pos.succ (next_oid db)))
  | _ => (res_status_json 400 (JErrMessage (ValidationError "title")),
          advance_oid db)
  end.
Proof.
  unfold post_tasks, try_catch, new_ObjectId, Task_save.
  rewrite bind_run, bind_run.
  destruct (body_title b) as [|s|]; simpl; [done| |done].
  by destruct (str_falsy (trim s)).
Qed.

Lemma update_checks_run {A} (b : TaskBody) (k : M A) (db : DB) :
  (cast_update b;; validate_update b;; k) db =
  match update_error b with
  | Some e => (inl e, db)
  | None => k db
  end.
Proof.
  unfold update_error, cast_update, validate_update. rewrite !bind_run.
  destruct (body_title b) as [|s|], (body_completed b) as [|c|],
    (body_user b) as [|u|]; simpl; try done;
    by destruct (str_falsy (trim s)).
Qed.

Lemma cast_id_run {A} (id : option ObjectId) (k : ObjectId → M A) (db : DB) :
  (cast_id id ≫= k) db =
  match id with
  | Some i => k i db
  | None => (inl (CastError "_id"), db)
  end.
Proof. by destruct id. Qed.

Lemma patch_tasks_id_run (uid : ObjectId) (now : Z) (id : option ObjectId)
    (b : TaskBody) (db : DB) :
  patch_tasks_id uid now id b db =
  match id with
  | None => (res_status_json 400 (JErrMessage (CastError "_id")), db)
  | Some i =>
      match update_error b with
      | Some e => (res_status_json 400 (JErrMessage e), db)
      | None =>
          match find_owned i uid db with
          | Some t =>
              (res_json (JTask i (apply_update b now t)),
               mkDB (users db) (<[i := apply_update b now t]> (tasks db))
                    (next_oid db))
          | None =>
              (res_status_json 404
                 (JMessage "Task not found or unauthorized"), db)
          end
      end
  end.
Proof.
  unfold patch_tasks_id, try_catch, Task_findOneAndUpdate.
  rewrite bind_run, cast_id_run. destruct id as [i|]; [|done].
  rewrite update_checks_run. destruct (update_error b); [done|].
  unfold update_owned. by destruct (find_owned i uid db).
Qed.

Lemma delete_tasks_id_run (uid : ObjectId) (id : option ObjectId) (db : DB) :
  delete_tasks_id uid id db =
  match id with
  | None => (res_status_json 500 (JErrMessage (CastError "_id")), db)
  | Some i =>
      match find_owned i uid db with
      | Some t =>
          (res_json (JMessage "Task deleted successfully"),
           mkDB (users db) (delete i (tasks db)) (next_oid db))
      | None =>
          (res_status_json 404
             (JMessage "Task not found or unauthorized"), db)
      end
  end.
Proof.
  unfold delete_tasks_id, try_catch, Task_findOneAndDelete.
  rewrite bind_run, cast_id_run. destruct id as [i|]; [|done].
  unfold delete_owned. by destruct (find_owned i uid db).
Qed.

Lemma find_owned_Some (i uid : ObjectId) (db : DB) (t : Task) :
  find_owned i uid db = Some t ↔ tasks db !! i = Some t ∧ user t = uid.
Proof.
  unfold find_owned. destruct (tasks db !! i) as [t'|].
  - case_decide as Hu; split.
    + by intros [= <-].
    + by intros [[= <-] _].
    + done.
    + intros [[= <-] ?]. done.
  - split; [done|]. by intros [? _].
Qed.

Lemma find_owned_None (i uid : ObjectId) (db : DB) :
  find_owned i uid db = None ↔
  ∀ t, tasks db !! i = Some t → user t ≠ uid.
Proof.
  unfold find_owned. destruct (tasks db !! i) as [t'|].
  - case_decide as Hu; split.
    + done.
    + intros Hall. by destruct (Hall t').
    + by intros _ t [= <-].
    + done.
  - done.
Qed.

(* Whatever the middleware answers itself is a 401 with a message. *)
Lemma authMiddleware_inl (a : option string) (now : Z) (r : Response) :
  authMiddleware JWT_SECRET a now = inl r →
  status r = 401 ∧ ∃ m, json r = JMessage m.
Proof.
  unfold authMiddleware, res_status_json.
  intros; repeat case_match; simplify_eq; simpl; eauto.
Qed.

(* Tokens come out of the two auth routes only, always from jwt.sign at
   the instant of the request, and only with a secret. *)
Lemma app_token (now : Z) (r : Request) (db db' : DB) (st : Z)
    (token : string) :
  app JWT_SECRET now r db = (mkResponse st (JToken token), db') →
  JWT_SECRET ≠ EmptyString ∧ ∃ uid, token = jwt_token uid JWT_SECRET now.
Proof.
  rewrite <- str_falsy_false.
  destruct r as [salt b|b|a|a b|a id b|a id]; simpl; unfold protected;
    try (destruct (authMiddleware JWT_SECRET a now) as [r|u] eqn:Ha;
         [apply authMiddleware_inl in Ha as [_ [m Hm]];
          intros [= -> ->]; by simpl in Hm |]);
    rewrite ?post_auth_register_run, ?post_auth_login_run, ?get_tasks_run,
      ?post_tasks_run, ?patch_tasks_id_run, ?delete_tasks_id_run;
    unfold res_status_json, res_json;
    intros; repeat case_match; simplify_eq; eauto.
Qed.

(* A token signed at the instant now passes the guard as long as the
   current second is within 3600 seconds of the second of signing. *)
Lemma guard_accepts_signed (uid : ObjectId) (now t : Z) :
  JWT_SECRET ≠ EmptyString →
  authMiddleware JWT_SECRET
    (Some (String.append "Bearer " (jwt_token uid JWT_SECRET now))) t
  = if now / 1000 + 3600 <=? t / 1000
    then inl (res_status_json 401 (JMessage "Token is not valid"))
    else inr uid.
Proof.
  intros Hkey. rewrite authMiddleware_Bearer, jwt_verify_sign by done.
  assert (str_falsy (jwt_token uid JWT_SECRET now) = false) as ->
    by apply str_falsy_false, jwt_encode_nonempty.
  by destruct (now / 1000 + 3600 <=? t / 1000).
Qed.

Lemma div_1000_add (now k : Z) : (now + k * 1000) / 1000 = now / 1000 + k.
Proof. by rewrite Z.div_add. Qed.

(** C4: every token handed out by the register or login route decodes,
    under the server's secret, to claims whose issue time is the second of
    the request and whose expiry is exactly 3600 seconds later; the guard
    lets a Bearer token through if and only if it decodes with a valid
    signature under the secret and the current second is before its
    expiry; hence a token issued at the instant T passes the guard at
    T + 59 min and is turned down with 401 at T + 61 min. *)
Theorem token_expires_after_one_hour :
  (∀ (token : string) (t : Z) (uid : ObjectId),
     authMiddleware JWT_SECRET (Some (String.append "Bearer " token)) t
       = inr uid ↔
     ∃ c, jwt_decode token JWT_SECRET = Some c ∧ t / 1000 < exp c
          ∧ userId c = uid) ∧
  (∀ (now : Z) (r : Request) (db db' : DB) (st : Z) (token : string),
     app JWT_SECRET now r db = (mkResponse st (JToken token), db') →
     ∃ uid,
       jwt_decode token JWT_SECRET
         = Some (mkClaims uid (now / 1000) (now / 1000 + 3600)) ∧
       authMiddleware JWT_SECRET (Some (String.append "Bearer " token))
         (now + 59 * 60 * 1000) = inr uid ∧
       authMiddleware JWT_SECRET (Some (String.append "Bearer " token))
         (now + 61 * 60 * 1000)
         = inl (res_status_json 401 (JMessage "Token is not valid"))).
Proof.
  split; [apply authMiddleware_Bearer_inr|].
  intros now r db db' st token [Hkey [uid ->]]%app_token. exists uid.
  split; [by apply jwt_decode_encode|].
  rewrite !guard_accepts_signed by done.
  change (59 * 60 * 1000) with (3540 * 1000).
  change (61 * 60 * 1000) with (3660 * 1000).
  rewrite !div_1000_add. split.
  - by destruct (Z.leb_spec (now / 1000 + 3600) (now / 1000 + 3540));
      [lia|].
  - by destruct (Z.leb_spec (now / 1000 + 3600) (now / 1000 + 3660));
      [|lia].
Qed.

(** C5 (amended): the guard answers 401 "Authorization header missing"
    when the header is absent or empty, and 401 "No token, authorization
    denied" when nothing is left of it once the first occurrence of
    "Bearer " is removed; in every other case what is left is verified as
    the token.  For the header "Bearer " + t that is t; for a header in
    which "Bearer " does not occur it is the header itself, so the marker
    is removed when present but is not required. *)
Theorem authMiddleware_header_handling :
  (∀ (h : option string) (now : Z),
     header_falsy h = true →
     authMiddleware JWT_SECRET h now
       = inl (res_status_json 401
                (JMessage "Authorization header missing"))) ∧
  (∀ (s : string) (now : Z),
     s ≠ EmptyString → js_replace "Bearer " "" s = EmptyString →
     authMiddleware JWT_SECRET (Some s) now
       = inl (res_status_json 401
                (JMessage "No token, authorization denied"))) ∧
  (∀ (s : string) (now : Z),
     s ≠ EmptyString → js_replace "Bearer " "" s ≠ EmptyString →
     authMiddleware JWT_SECRET (Some s) now
       = match jwt_verify (js_replace "Bearer " "" s) JWT_SECRET now with
         | inr decoded => inr (userId decoded)
         | inl _ => inl (res_status_json 401 (JMessage "Token is not valid"))
         end) ∧
  (∀ t : string, js_replace "Bearer " "" (String.append "Bearer " t) = t) ∧
  (∀ s : string,
     includes "Bearer " s = false → js_replace "Bearer " "" s = s).
Proof.
  repeat split.
  - intros [s|] now Hf; [|done]. simpl in Hf. unfold authMiddleware.
    by rewrite Hf.
  - intros s now Hs%str_falsy_false Ht. unfold authMiddleware.
    by rewrite Hs, Ht.
  - intros s now Hs%str_falsy_false Ht%str_falsy_false.
    unfold authMiddleware. by rewrite Hs, Ht.
  - apply js_replace_absent.
Qed.

(* --------------------------------------------------------------------- *)
(* The credential service                                                 *)
(* --------------------------------------------------------------------- *)

(* User.findOne({ email }) gives null exactly when no stored user has
   the (trimmed) email; a user it gives is stored and has that email. *)
(* User.findOne({ email }) gives null exactly when no stored user has
   the (trimmed) email, and always for a missing email; a user it gives
   is stored and has the trimmed email of the filter. *)
Lemma User_findOne_run (e : option string) (db : DB)
    (found : option (ObjectId * User)) :
  User_findOne e db = (inr found, db) ↔ find_email e (users db) = found.
Proof.
  unfold User_findOne. split; [by intros [= ->]|by intros ->].
Qed.

Lemma find_email_None (e : string) (us : gmap ObjectId User) :
  find_email (Some e) us = None ↔
  ∀ j v, us !! j = Some v → email v ≠ trim e.
Proof. apply head_matching_None. Qed.

Lemma find_email_Some (e : option string) (us : gmap ObjectId User)
    (i : ObjectId) (u : User) :
  find_email e us = Some (i, u) →
  ∃ s, e = Some s ∧ us !! i = Some u ∧ email u = trim s.
Proof.
  destruct e as [s|]; [|done]. intros Hh%head_matching_Some. eauto.
Qed.

(** X22: for logins that carry a password, an identifier that is not in
    the store (User.findOne gives null) and an identifier that is in the
    store with a password bcrypt.compare turns down get the same answer,
    status 400 with the message "Invalid Credentials", and neither
    changes the store. *)
Theorem login_failures_indistinguishable (now : Z) (db : DB)
    (b1 b2 : AuthBody) (i : ObjectId) (u : User) (pw : string) :
  User_findOne (body_email b1) db = (inr None, db) →
  User_findOne (body_email b2) db = (inr (Some (i, u)), db) →
  body_password b2 = Some pw →
  bcrypt_compare_str pw (password u) = false →
  post_auth_login JWT_SECRET now b1 db
    = (res_status_json 400 (JMessage "Invalid Credentials"), db) ∧
  post_auth_login JWT_SECRET now b2 db
    = post_auth_login JWT_SECRET now b1 db.
Proof.
  intros Hno%User_findOne_run Hyes%User_findOne_run Hpw Hbad.
  rewrite !post_auth_login_run. by rewrite Hno, Hyes, Hpw, Hbad.
Qed.

Lemma unique_emails_insert (us : gmap ObjectId User) (i : ObjectId)
    (u : User) :
  unique_emails us →
  (∀ j v, us !! j = Some v → email v ≠ email u) →
  unique_emails (<[i := u]> us).
Proof.
  intros Huniq Hfresh j k v w Hj Hk Hvw.
  destruct (decide (i = j)) as [<-|Hij], (decide (i = k)) as [<-|Hik];
    simplify_map_eq; [done| | |by eapply Huniq].
  - by destruct (Hfresh k w).
  - by destruct (Hfresh j v).
Qed.

(* A request leaves the users alone, or it is a registration of an
   identifier nobody holds. *)
Lemma app_users (now : Z) (r : Request) (db : DB) :
  users (app JWT_SECRET now r db).2 = users db ∨
  ∃ u, users (app JWT_SECRET now r db).2 = <[next_oid db := u]> (users db)
       ∧ ∀ j v, users db !! j = Some v → email v ≠ email u.
Proof.
  destruct r as [salt b|b|a|a b|a id b|a id]; simpl; unfold protected;
    try (destruct (authMiddleware JWT_SECRET a now) as [?|uid];
         [by left|]);
    rewrite ?post_auth_register_run, ?post_auth_login_run, ?get_tasks_run,
      ?post_tasks_run, ?patch_tasks_id_run, ?delete_tasks_id_run.
  2-6: repeat case_match; by left.
  destruct (find_email _ _) as [?|] eqn:E; [by left|].
  destruct (body_password b) as [pw|]; [|by left].
  destruct (body_email b) as [e|]; [|by left].
  destruct (str_falsy (trim e)); [by left|]. right. eexists.
  split; [done|]. simpl. by apply find_email_None.
Qed.

Lemma serve_unique_emails (rs : list (Z * Request)) (db : DB) :
  unique_emails (users db) →
  unique_emails (users (serve JWT_SECRET rs db)).
Proof.
  revert db. induction rs as [|[now r] rs IH]; intros db Huniq; [done|].
  simpl. apply IH.
  destruct (app_users now r db) as [->|(u & -> & Hfresh)]; [done|].
  by apply unique_emails_insert.
Qed.

(* new_ObjectId never hands out the _id of a stored document: an insert
   by a route does not overwrite. *)
Lemma app_fresh_oid (now : Z) (r : Request) (db : DB) :
  fresh_oid db → fresh_oid (app JWT_SECRET now r db).2.
Proof.
  intros [Hu Ht].
  destruct r as [salt b|b|a|a b|a id b|a id]; simpl; unfold protected;
    try (destruct (authMiddleware JWT_SECRET a now) as [?|uid];
         [done|]);
    rewrite ?post_auth_register_run, ?post_auth_login_run, ?get_tasks_run,
      ?post_tasks_run, ?patch_tasks_id_run, ?delete_tasks_id_run;
    repeat case_match; try done; split; simpl; intros j x Hj;
    try (apply lookup_insert_Some in Hj as [[<- _]|[_ Hj]]);
    try (apply lookup_delete_Some in Hj as [_ Hj]);
    try match goal with
        | Hf : find_owned _ _ _ = Some _ |- _ =>
            apply find_owned_Some in Hf as [Hf _]; apply Ht in Hf
        end;
    try (apply Hu in Hj); try (apply Ht in Hj); lia.
Qed.

Lemma serve_fresh_oid (rs : list (Z * Request)) :
  fresh_oid (serve JWT_SECRET rs empty_db).
Proof.
  assert (Hgen : ∀ db, fresh_oid db → fresh_oid (serve JWT_SECRET rs db)).
  { induction rs as [|[now r] rs IH]; intros db Hdb; [done|].
    simpl. by apply IH, app_fresh_oid. }
  apply Hgen. by split.
Qed.

(** C6: a registration whose identifier (the email, trimmed as the
    schema does) is already held by a stored user is answered with
    status 400 and the message "User already exists" and leaves the
    store as it was; and whatever requests are served, starting from the
    empty store, no two user records carry the same identifier. *)
Theorem register_identifier_taken :
  (∀ (now : Z) (salt : string) (b : AuthBody) (db : DB) (i : ObjectId)
     (u : User) (e : string),
     body_email b = Some e →
     users db !! i = Some u → email u = trim e →
     post_auth_register JWT_SECRET now salt b db
       = (res_status_json 400 (JMessage "User already exists"), db)) ∧
  (∀ (rs : list (Z * Request)) (db : DB),
     unique_emails (users db) →
     unique_emails (users (serve JWT_SECRET rs db))) ∧
  (∀ rs : list (Z * Request),
     unique_emails (users (serve JWT_SECRET rs empty_db))).
Proof.
  split; [|split].
  - intros now salt b db i u e He Hi Hu. rewrite post_auth_register_run, He.
    destruct (find_email _ _) as [?|] eqn:E; [done|].
    by eapply find_email_None in E.
  - apply serve_unique_emails.
  - intros rs. apply serve_unique_emails. by intros i j u v ?.
Qed.

(** C7 (amended): a registration whose identifier is absent or empty
    (after the schema's trim), or whose password is absent, creates no
    user record; whenever User.findOne finds no user for the identifier
    it is answered with status 500 and the message "Server error during
    registration". *)
Theorem register_missing_fields (now : Z) (salt : string) (b : AuthBody)
    (db : DB) :
  body_email b = None ∨
  (∃ e, body_email b = Some e ∧ trim e = EmptyString) ∨
  body_password b = None →
  users (post_auth_register JWT_SECRET now salt b db).2 = users db ∧
  (User_findOne (body_email b) db = (inr None, db) →
   (post_auth_register JWT_SECRET now salt b db).1
     = res_status_json 500 (JMessage "Server error during registration")).
Proof.
  intros Hmissing. rewrite post_auth_register_run. split.
  - destruct (find_email _ _) as [?|]; [done|].
    destruct Hmissing as [-> | [(e & -> & ->) | ->]];
      by destruct (body_password b).
  - intros ->%User_findOne_run.
    destruct Hmissing as [-> | [(e & -> & ->) | ->]];
      by destruct (body_password b).
Qed.

(* --------------------------------------------------------------------- *)
(* The task routes behind the guard                                       *)
(* --------------------------------------------------------------------- *)

Lemma app_GetTasks (h : option string) (now : Z) (uid : ObjectId) (db : DB) :
  authMiddleware JWT_SECRET h now = inr uid →
  app JWT_SECRET now (GetTasks h) db = get_tasks uid db.
Proof. intros Ha. simpl. unfold protected. by rewrite Ha. Qed.

Lemma app_PostTasks (h : option string) (now : Z) (uid : ObjectId)
    (b : TaskBody) (db : DB) :
  authMiddleware JWT_SECRET h now = inr uid →
  app JWT_SECRET now (PostTasks h b) db = post_tasks uid now b db.
Proof. intros Ha. simpl. unfold protected. by rewrite Ha. Qed.

Lemma app_PatchTasksId (h : option string) (now : Z) (uid : ObjectId)
    (id : option ObjectId) (b : TaskBody) (db : DB) :
  authMiddleware JWT_SECRET h now = inr uid →
  app JWT_SECRET now (PatchTasksId h id b) db
    = patch_tasks_id uid now id b db.
Proof. intros Ha. simpl. unfold protected. by rewrite Ha. Qed.

Lemma app_DeleteTasksId (h : option string) (now : Z) (uid : ObjectId)
    (id : option ObjectId) (db : DB) :
  authMiddleware JWT_SECRET h now = inr uid →
  app JWT_SECRET now (DeleteTasksId h id) db = delete_tasks_id uid id db.
Proof. intros Ha. simpl. unfold protected. by rewrite Ha. Qed.

Lemma find_owned_foreign (i uid : ObjectId) (db : DB) (t : Task) :
  tasks db !! i = Some t → user t ≠ uid → find_owned i uid db = None.
Proof.
  intros Hi Hu. apply find_owned_None. intros t' Ht'.
  rewrite Hi in Ht'. by injection Ht' as <-.
Qed.

Lemma find_owned_missing (i uid : ObjectId) (db : DB) :
  tasks db !! i = None → find_owned i uid db = None.
Proof. intros Hi. unfold find_owned. by rewrite Hi. Qed.

(** C2 (amended): let a task be stored under the id i with an owner other
    than the caller the token identifies.  A DELETE on i, and a PATCH on
    i whose body passes Mongoose's casting and validation, are answered
    with status 404 and the message "Task not found or unauthorized".
    For every body, the PATCH leaves the store as it was, its answer
    carries no task, and it is the very answer the same request gets
    from a store in which i does not exist (a body that fails casting or
    validation gets 400 in both); the same holds for DELETE. *)
Theorem foreign_task_not_found (h : option string) (now : Z)
    (uid i : ObjectId) (t : Task) (db : DB) :
  authMiddleware JWT_SECRET h now = inr uid →
  tasks db !! i = Some t → user t ≠ uid →
  app JWT_SECRET now (DeleteTasksId h (Some i)) db
    = (res_status_json 404 (JMessage "Task not found or unauthorized"), db) ∧
  (∀ b, update_error b = None →
        app JWT_SECRET now (PatchTasksId h (Some i) b) db
          = (res_status_json 404
               (JMessage "Task not found or unauthorized"), db)) ∧
  (∀ b e, update_error b = Some e →
          app JWT_SECRET now (PatchTasksId h (Some i) b) db
            = (res_status_json 400 (JErrMessage e), db)) ∧
  (∀ b, (app JWT_SECRET now (PatchTasksId h (Some i) b) db).2 = db ∧
        (∀ j t', json (app JWT_SECRET now (PatchTasksId h (Some i) b) db).1
                   ≠ JTask j t')) ∧
  (∀ db0, tasks db0 !! i = None →
     (app JWT_SECRET now (DeleteTasksId h (Some i)) db0).1
       = (app JWT_SECRET now (DeleteTasksId h (Some i)) db).1 ∧
     ∀ b, (app JWT_SECRET now (PatchTasksId h (Some i) b) db0).1
            = (app JWT_SECRET now (PatchTasksId h (Some i) b) db).1).
Proof.
  intros Ha Hi Hu.
  pose proof (find_owned_foreign i uid db t Hi Hu) as Hnone.
  repeat split.
  - by rewrite (app_DeleteTasksId _ _ _ _ _ Ha), delete_tasks_id_run, Hnone.
  - intros b Hb.
    by rewrite (app_PatchTasksId _ _ _ _ _ _ Ha), patch_tasks_id_run,
      Hb, Hnone.
  - intros b e Hb.
    by rewrite (app_PatchTasksId _ _ _ _ _ _ Ha), patch_tasks_id_run, Hb.
  - rewrite (app_PatchTasksId _ _ _ _ _ _ Ha), patch_tasks_id_run, Hnone.
    by destruct (update_error b).
  - rewrite (app_PatchTasksId _ _ _ _ _ _ Ha), patch_tasks_id_run, Hnone.
    by destruct (update_error b).
  - rewrite !(app_DeleteTasksId _ _ _ _ _ Ha), !delete_tasks_id_run.
    by rewrite Hnone, (find_owned_missing i uid db0).
  - intros b.
    rewrite !(app_PatchTasksId _ _ _ _ _ _ Ha), !patch_tasks_id_run.
    rewrite Hnone, (find_owned_missing i uid db0) by done.
    by destruct (update_error b).
Qed.

#[local] Instance newer_first_total : Total newer_first.
Proof. intros a b. unfold newer_first. lia. Qed.

#[local] Instance newer_first_trans : Transitive newer_first.
Proof. intros a b c. unfold newer_first. lia. Qed.

(** C8: for a request GET /api/tasks that passes the guard, the answer
    is 200 with a list that holds exactly the stored tasks whose owner is
    the identity taken from the token, each once, ordered by creation
    time from the newest to the oldest; the store is left as it was. *)
Theorem get_tasks_own_newest_first (h : option string) (now : Z)
    (uid : ObjectId) (db : DB) :
  authMiddleware JWT_SECRET h now = inr uid →
  ∃ l, app JWT_SECRET now (GetTasks h) db = (res_json (JTasks l), db) ∧
       (∀ i t, (i, t) ∈ l ↔ tasks db !! i = Some t ∧ user t = uid) ∧
       NoDup l ∧
       StronglySorted (λ a b, createdAt b.2 ≤ createdAt a.2) l.
Proof.
  intros Ha. rewrite (app_GetTasks _ _ _ _ Ha), get_tasks_run.
  eexists. split; [done|]. split; [|split].
  - intros i t. rewrite merge_sort_Permutation.
    apply (elem_of_matching (λ t, user t = uid)).
  - rewrite merge_sort_Permutation. apply NoDup_matching.
  - apply (StronglySorted_merge_sort newer_first).
Qed.

Lemma patch_owned (uid : ObjectId) (now : Z) (i : ObjectId) (b : TaskBody)
    (db : DB) (t : Task) :
  tasks db !! i = Some t → user t = uid → update_error b = None →
  patch_tasks_id uid now (Some i) b db
    = (res_json (JTask i (apply_update b now t)),
       mkDB (users db) (<[i := apply_update b now t]> (tasks db))
            (next_oid db)).
Proof.
  intros Hi Hu Hb. rewrite patch_tasks_id_run, Hb.
  by assert (find_owned i uid db = Some t) as -> by by apply find_owned_Some.
Qed.

(** C9: for a stored task of the caller with completed = false, the
    PATCH with completed: true followed by the PATCH with
    completed: false are both answered with 200; after the second the
    task is stored, and returned, with completed = false again and with
    the title, owner and creation time it had at the start, and no other
    task has changed. *)
Theorem toggle_twice_restores (h : option string) (now1 now2 : Z)
    (uid i : ObjectId) (t : Task) (db : DB) :
  authMiddleware JWT_SECRET h now1 = inr uid →
  authMiddleware JWT_SECRET h now2 = inr uid →
  tasks db !! i = Some t → user t = uid → completed t = false →
  let on := mkTaskBody Absent (Value true) Absent in
  let off := mkTaskBody Absent (Value false) Absent in
  let s1 := app JWT_SECRET now1 (PatchTasksId h (Some i) on) db in
  let s2 := app JWT_SECRET now2 (PatchTasksId h (Some i) off) s1.2 in
  s1.1 = res_json (JTask i (mkTask (title t) true uid (createdAt t) now1)) ∧
  s2.1 = res_json (JTask i (mkTask (title t) false uid (createdAt t) now2)) ∧
  tasks s2.2 !! i
    = Some (mkTask (title t) (completed t) (user t) (createdAt t) now2) ∧
  ∀ j, j ≠ i → tasks s2.2 !! j = tasks db !! j.
Proof.
  intros Ha1 Ha2 Hi Hu Hc on off s1 s2. subst s1 s2.
  rewrite (app_PatchTasksId _ _ _ _ _ _ Ha2).
  rewrite (app_PatchTasksId _ _ _ _ _ _ Ha1).
  rewrite (patch_owned uid now1 i on db t) by done.
  rewrite (patch_owned uid now2 i off _ (apply_update on now1 t));
    [| by apply lookup_insert_eq | done | done].
  unfold apply_update, on, off. simpl. rewrite Hu, Hc.
  repeat split.
  - by rewrite lookup_insert_eq.
  - intros j Hj. by rewrite !lookup_insert_ne.
Qed.

(** C10: for a request POST /api/tasks that passes the guard, only the
    title of the body is read: two bodies with the same title get the
    same result.  A task that is created is answered with 201, is stored
    under the returned id, has completed = false, the identity from the
    token as owner and the trimmed title of the body; and a body with a
    title that is not empty after trimming does create one. *)
Theorem post_tasks_owner_and_default (h : option string) (now : Z)
    (uid : ObjectId) (b : TaskBody) (db : DB) :
  authMiddleware JWT_SECRET h now = inr uid →
  (∀ b', body_title b' = body_title b →
         app JWT_SECRET now (PostTasks h b') db
           = app JWT_SECRET now (PostTasks h b) db) ∧
  (∀ st i t db',
     app JWT_SECRET now (PostTasks h b) db = (mkResponse st (JTask i t), db') →
     st = 201 ∧ completed t = false ∧ user t = uid ∧
     tasks db' !! i = Some t ∧
     ∃ s, body_title b = Value s ∧ title t = trim s) ∧
  (∀ s, body_title b = Value s → trim s ≠ EmptyString →
        app JWT_SECRET now (PostTasks h b) db
          = (res_status_json 201
               (JTask (next_oid db) (mkTask (trim s) false uid now now)),
             mkDB (users db)
                  (<[next_oid db := mkTask (trim s) false uid now now]>
                     (tasks db))
                  (Pos.succ (next_oid db)))).
Proof.
  intros Ha. split; [|split].
  - intros b' Hb. rewrite !(app_PostTasks _ _ _ _ _ Ha), !post_tasks_run.
    by rewrite Hb.
  - intros st i t db'.
    rewrite (app_PostTasks _ _ _ _ _ Ha), post_tasks_run.
    unfold res_status_json.
    destruct (body_title b) as [|s|]; [by intros [=]| |by intros [=]].
    destruct (str_falsy (trim s)); [by intros [=]|].
    intros [= <- <- <- <-]. simpl. rewrite lookup_insert_eq. eauto 10.
  - intros s Hs Hne%str_falsy_false.
    by rewrite (app_PostTasks _ _ _ _ _ Ha), post_tasks_run, Hs, Hne.
Qed.

End Properties.

(* --------------------------------------------------------------------- *)
(* Concrete runs with the reference libraries                             *)
(* --------------------------------------------------------------------- *)

Lemma token_expires_after_one_hour_witness :
  ∃ token,
    json (post_auth_register demo_secret 1700000000000 "salt"
            (mkAuthBody (Some "ann@example.org") (Some "pw")) empty_db).1
      = JToken token ∧
    authMiddleware demo_secret (bearer token)
      (1700000000000 + 59 * 60 * 1000) = inr 1%positive ∧
    authMiddleware demo_secret (bearer token)
      (1700000000000 + 61 * 60 * 1000)
      = inl (res_status_json 401 (JMessage "Token is not valid")).
Proof.
  destruct (token_expires_after_one_hour (jwt := ref_jwt)
              (bcrypt := ref_bcrypt) demo_secret) as [_ Hissue].
  eexists. split; [vm_compute; reflexivity|].
  edestruct (Hissue 1700000000000
               (PostAuthRegister "salt"
                  (mkAuthBody (Some "ann@example.org") (Some "pw"))) empty_db)
    as (uid & Hdec & Hok & Hlate); [vm_compute; reflexivity|].
  vm_compute in Hdec. injection Hdec as <-. by split.
Defined.

Lemma demo_db_users :
  users demo_db !! 1%positive = Some ann ∧
  users demo_db !! 2%positive
    = Some (mkUser "bob@example.org" "$salt2$pw2" 1000 1000).
Proof. by vm_compute. Qed.

Lemma demo_db_tasks : map_to_list (tasks demo_db) = [(3%positive, buy_milk)].
Proof. by vm_compute. Qed.

Lemma authMiddleware_header_handling_witness :
  authMiddleware demo_secret None 0
    = inl (res_status_json 401 (JMessage "Authorization header missing")) ∧
  authMiddleware demo_secret (Some "Bearer ") 0
    = inl (res_status_json 401 (JMessage "No token, authorization denied")) ∧
  authMiddleware demo_secret (Some "Bearer abc") 0
    = inl (res_status_json 401 (JMessage "Token is not valid")) ∧
  js_replace "Bearer " "" "Basic abc" = "Basic abc".
Proof.
  destruct (authMiddleware_header_handling (jwt := ref_jwt) demo_secret)
    as (Hmissing & Hempty & Hverify & _ & Hkeep).
  split; [apply Hmissing; reflexivity|].
  split; [apply Hempty; [discriminate|reflexivity]|].
  split.
  - rewrite Hverify; [reflexivity|discriminate|discriminate].
  - apply Hkeep. reflexivity.
Defined.

(* C5 as stated fails: a header that is just a token, without the
   marker, passes the guard. *)
Lemma bare_token_passes_guard :
  startsWith "Bearer " ann_token = false ∧
  authMiddleware demo_secret (Some ann_token) 1000 = inr 1%positive.
Proof. vm_compute. by split. Qed.

Lemma login_failures_indistinguishable_witness :
  post_auth_login demo_secret 5000
    (mkAuthBody (Some "ann@example.org") (Some "guess")) demo_db
  = post_auth_login demo_secret 5000
      (mkAuthBody (Some "nobody@example.org") (Some "guess")) demo_db.
Proof.
  refine (proj2 (login_failures_indistinguishable (jwt := ref_jwt)
                   (bcrypt := ref_bcrypt) demo_secret 5000 demo_db
                   (mkAuthBody (Some "nobody@example.org") (Some "guess"))
                   (mkAuthBody (Some "ann@example.org") (Some "guess"))
                   1%positive ann "guess" _ _ _ _)).
  - vm_compute; reflexivity.
  - vm_compute; reflexivity.
  - reflexivity.
  - vm_compute; reflexivity.
Defined.

Lemma register_identifier_taken_witness :
  post_auth_register demo_secret 5000 "salt3"
    (mkAuthBody (Some "ann@example.org") (Some "other")) demo_db
  = (res_status_json 400 (JMessage "User already exists"), demo_db) ∧
  unique_emails
    (users (serve demo_secret
              [(5000, PostAuthRegister "salt3"
                        (mkAuthBody (Some "carl@example.org") (Some "pw3")))]
              demo_db)).
Proof.
  destruct (register_identifier_taken (jwt := ref_jwt)
              (bcrypt := ref_bcrypt) demo_secret)
    as (Htaken & Hstep & Hall).
  split.
  - apply (Htaken 5000 "salt3"
             (mkAuthBody (Some "ann@example.org") (Some "other")) demo_db
             1%positive ann "ann@example.org").
    + reflexivity.
    + vm_compute; reflexivity.
    + vm_compute; reflexivity.
  - apply Hstep. exact (Hall demo_requests).
Defined.

Lemma register_missing_fields_witness :
  (post_auth_register demo_secret 5000 "salt3"
     (mkAuthBody None (Some "pw3")) empty_db).1
  = res_status_json 500 (JMessage "Server error during registration") ∧
  (post_auth_register demo_secret 5000 "salt3"
     (mkAuthBody (Some "   ") (Some "pw3")) demo_db).1
  = res_status_json 500 (JMessage "Server error during registration") ∧
  users (post_auth_register demo_secret 5000 "salt3"
           (mkAuthBody (Some "carl@example.org") None) demo_db).2
  = users demo_db.
Proof.
  split; [|split].
  - refine (proj2 (register_missing_fields (jwt := ref_jwt)
                     (bcrypt := ref_bcrypt) demo_secret 5000 "salt3"
                     (mkAuthBody None (Some "pw3")) empty_db _) _).
    + left; reflexivity.
    + vm_compute; reflexivity.
  - refine (proj2 (register_missing_fields (jwt := ref_jwt)
                     (bcrypt := ref_bcrypt) demo_secret 5000 "salt3"
                     (mkAuthBody (Some "   ") (Some "pw3")) demo_db
                     _) _).
    + right; left. exists "   ". split; [reflexivity|].
      vm_compute; reflexivity.
    + vm_compute; reflexivity.
  - refine (proj1 (register_missing_fields (jwt := ref_jwt)
                     (bcrypt := ref_bcrypt) demo_secret 5000 "salt3"
                     (mkAuthBody (Some "carl@example.org") None) demo_db
                     _)).
    right; right; reflexivity.
Defined.

(* C7 as stated fails: an empty identifier and an absent identifier are
   answered with 500, not 400, and an empty password is accepted, with a
   record created. *)
Lemma register_empty_fields_not_400 :
  status (post_auth_register demo_secret 5000 "salt3"
            (mkAuthBody (Some "") (Some "pw3")) empty_db).1 = 500 ∧
  status (post_auth_register demo_secret 5000 "salt3"
            (mkAuthBody None (Some "pw3")) empty_db).1 = 500 ∧
  status (post_auth_register demo_secret 5000 "salt3"
            (mkAuthBody (Some "carl@example.org") (Some "")) empty_db).1
    = 201 ∧
  users (post_auth_register demo_secret 5000 "salt3"
           (mkAuthBody (Some "carl@example.org") (Some "")) empty_db).2
    !! 1%positive
  = Some (mkUser "carl@example.org" (ref_hash "" "salt3") 5000 5000).
Proof. by vm_compute. Qed.

(** C3: a login without a password tells a stored identifier from an
    unknown one.  For Ann's stored identifier bcrypt.compare throws on
    the missing password and the answer is 500 "Server error during
    login"; for an identifier nobody holds the answer is 400 "Invalid
    Credentials". *)
Theorem login_without_password_reveals_identifier :
  users demo_db !! 1%positive = Some ann ∧
  User_findOne (Some "nobody@example.org") demo_db = (inr None, demo_db) ∧
  post_auth_login demo_secret 5000 (mkAuthBody (Some "ann@example.org") None)
    demo_db
  = (res_status_json 500 (JMessage "Server error during login"), demo_db) ∧
  post_auth_login demo_secret 5000
    (mkAuthBody (Some "nobody@example.org") None) demo_db
  = (res_status_json 400 (JMessage "Invalid Credentials"), demo_db).
Proof. by vm_compute. Qed.

Lemma foreign_task_not_found_witness :
  app demo_secret 5000 (DeleteTasksId (bearer bob_token) (Some 3%positive))
    demo_db
  = (res_status_json 404 (JMessage "Task not found or unauthorized"),
     demo_db) ∧
  app demo_secret 5000
    (PatchTasksId (bearer bob_token) (Some 3%positive)
       (mkTaskBody (Value "Mine now") (Value true) Absent)) demo_db
  = (res_status_json 404 (JMessage "Task not found or unauthorized"),
     demo_db) ∧
  (app demo_secret 5000
     (DeleteTasksId (bearer bob_token) (Some 3%positive)) empty_db).1
  = (app demo_secret 5000
       (DeleteTasksId (bearer bob_token) (Some 3%positive)) demo_db).1.
Proof.
  destruct (foreign_task_not_found (jwt := ref_jwt) (bcrypt := ref_bcrypt)
              demo_secret (bearer bob_token) 5000 2%positive 3%positive
              buy_milk demo_db) as (Hdelete & Hpatch & _ & _ & Hsame).
  - vm_compute; reflexivity.
  - vm_compute; reflexivity.
  - vm_compute; discriminate.
  - split; [exact Hdelete|]. split.
    + apply Hpatch. vm_compute; reflexivity.
    + apply (Hsame empty_db). reflexivity.
Defined.

(* C2 as stated fails: Bob's PATCH on Ann's task with a title that is
   empty is answered with 400, not 404. *)
Lemma foreign_patch_invalid_body_400 :
  tasks demo_db !! 3%positive = Some buy_milk ∧
  user buy_milk = 1%positive ∧
  authMiddleware demo_secret (bearer bob_token) 5000 = inr 2%positive ∧
  (app demo_secret 5000
     (PatchTasksId (bearer bob_token) (Some 3%positive)
        (mkTaskBody (Value "") Absent Absent)) demo_db).1
  = res_status_json 400 (JErrMessage (ValidationError "title")).
Proof. by vm_compute. Qed.

Lemma get_tasks_own_newest_first_witness :
  ∃ l, app demo_secret 5000 (GetTasks (bearer ann_token)) demo_db
         = (res_json (JTasks l), demo_db) ∧
       (∀ i t, (i, t) ∈ l ↔
               tasks demo_db !! i = Some t ∧ user t = 1%positive) ∧
       NoDup l.
Proof.
  destruct (get_tasks_own_newest_first (jwt := ref_jwt)
              (bcrypt := ref_bcrypt) demo_secret (bearer ann_token) 5000
              1%positive demo_db) as (l & Hl & Hown & Hnodup & _).
  - vm_compute; reflexivity.
  - exists l. split; [exact Hl|]. split; [exact Hown|exact Hnodup].
Defined.

Example get_tasks_demo :
  app demo_secret 5000 (GetTasks (bearer ann_token)) demo_db
  = (res_json (JTasks [(3%positive, buy_milk)]), demo_db).
Proof. by vm_compute. Qed.

Lemma toggle_twice_restores_witness :
  tasks (serve demo_secret
           [ (5000, PatchTasksId (bearer ann_token) (Some 3%positive)
                      (mkTaskBody Absent (Value true) Absent));
             (6000, PatchTasksId (bearer ann_token) (Some 3%positive)
                      (mkTaskBody Absent (Value false) Absent)) ]
           demo_db) !! 3%positive
  = Some (mkTask "Buy milk" false 1%positive 2000 6000).
Proof.
  refine (proj1 (proj2 (proj2
            (toggle_twice_restores (jwt := ref_jwt) (bcrypt := ref_bcrypt)
               demo_secret (bearer ann_token) 5000 6000 1%positive
               3%positive buy_milk demo_db _ _ _ _ _)))).
  - vm_compute; reflexivity.
  - vm_compute; reflexivity.
  - vm_compute; reflexivity.
  - reflexivity.
  - reflexivity.
Defined.

Lemma post_tasks_owner_and_default_witness :
  (app demo_secret 5000
     (PostTasks (bearer ann_token)
        (mkTaskBody (Value " Call Bob ") (Value true) (Value 2%positive)))
     demo_db).1
  = res_status_json 201
      (JTask 4%positive (mkTask "Call Bob" false 1%positive 5000 5000)).
Proof.
  destruct (post_tasks_owner_and_default (jwt := ref_jwt)
              (bcrypt := ref_bcrypt) demo_secret (bearer ann_token) 5000
              1%positive
              (mkTaskBody (Value " Call Bob ") (Value true)
                 (Value 2%positive))
              demo_db) as (_ & _ & Hcreate).
  - vm_compute; reflexivity.
  - rewrite (Hcreate " Call Bob "); [vm_compute; reflexivity | reflexivity |].
    vm_compute; discriminate.
Defined.

(** C1: the PATCH route hands the whole body to the update, so a body
    with a user field moves the task to that user.  Ann, the owner of
    task 3, sends { user: 2 }: the answer is 200 with Bob as owner, the
    stored task belongs to Bob, and it has left Ann's list for Bob's. *)
Theorem patch_body_reassigns_owner :
  let s := app demo_secret 5000
             (PatchTasksId (bearer ann_token) (Some 3%positive)
                (mkTaskBody Absent Absent (Value 2%positive))) demo_db in
  user <$> tasks demo_db !! 3%positive = Some 1%positive ∧
  authMiddleware demo_secret (bearer ann_token) 5000 = inr 1%positive ∧
  s.1 = res_json (JTask 3%positive
                    (mkTask "Buy milk" false 2%positive 2000 5000)) ∧
  user <$> tasks s.2 !! 3%positive = Some 2%positive ∧
  (app demo_secret 6000 (GetTasks (bearer ann_token)) s.2).1
    = res_json (JTasks []) ∧
  (app demo_secret 6000 (GetTasks (bearer bob_token)) s.2).1
    = res_json (JTasks [(3%positive,
                         mkTask "Buy milk" false 2%positive 2000 5000)]).
Proof. by vm_compute. Qed.

(* ===================================================================== *)
(*                   Further properties of the routes                     *)
(* ===================================================================== *)

Lemma head_matching_insert {A} (P : A → Prop) `{∀ a, Decision (P a)}
    (c : gmap ObjectId A) (i : ObjectId) (a : A) :
  (∀ j b, c !! j = Some b → ¬ P b) → P a →
  head (matching P (<[i := a]> c)) = Some (i, a).
Proof.
  intros Hno Ha.
  destruct (matching P (<[i := a]> c)) as [|[j b] l] eqn:E.
  - assert (Hin : (i, a) ∈ matching P (<[i := a]> c)).
    { apply elem_of_matching. by rewrite lookup_insert_eq. }
    rewrite E in Hin. by apply elem_of_nil in Hin.
  - assert (Hin : (j, b) ∈ matching P (<[i := a]> c)) by (rewrite E; left).
    apply elem_of_matching in Hin as [Hj Hb].
    apply lookup_insert_Some in Hj as [[<- <-]|[_ Hj]]; [done|].
    by destruct (Hno j b).
Qed.

Section RouteProperties.
Context {jwt : JwtLib} {bcrypt : BcryptLib}.
Variable JWT_SECRET : string.

Lemma register_stores_user (now : Z) (salt pw e : string) (b : AuthBody)
    (db : DB) :
  User_findOne (body_email b) db = (inr None, db) →
  body_email b = Some e → trim e ≠ EmptyString →
  body_password b = Some pw →
  let u := mkUser (trim e) (bcrypt_hash_str pw salt) now now in
  post_auth_register JWT_SECRET now salt b db
  = (if str_falsy JWT_SECRET then
       res_status_json 500 (JMessage "Server error during registration")
     else
       res_status_json 201 (JToken (jwt_token (next_oid db) JWT_SECRET now)),
     mkDB (<[next_oid db := u]> (users db)) (tasks db)
          (Pos.succ (next_oid db))) ∧
  find_email (body_email b) (<[next_oid db := u]> (users db))
  = Some (next_oid db, u).
Proof.
  intros Hnone%User_findOne_run He Hne Hpw u. split.
  - rewrite post_auth_register_run, Hnone, Hpw, He.
    by apply str_falsy_false in Hne as ->.
  - rewrite He in *. unfold find_email.
    apply (head_matching_insert (λ v, email v = trim e)); [|done].
    by apply find_email_None.
Qed.

(** X1: with a secret set, a registration with a password, whose
    identifier is not empty after trimming and is held by nobody, is
    answered 201 with a token; the new user is stored under a new id
    with the trimmed identifier and the bcrypt hash of the password, the
    tasks are untouched, the token passes the guard as the new user, and
    User.findOne now finds that user. *)
Theorem register_creates_user (now : Z) (salt pw e : string)
    (b : AuthBody) (db : DB) :
  JWT_SECRET ≠ EmptyString →
  User_findOne (body_email b) db = (inr None, db) →
  body_email b = Some e → trim e ≠ EmptyString →
  body_password b = Some pw →
  let id := next_oid db in
  let u := mkUser (trim e) (bcrypt_hash_str pw salt) now now in
  let token := jwt_token id JWT_SECRET now in
  let s := post_auth_register JWT_SECRET now salt b db in
  s.1 = res_status_json 201 (JToken token) ∧
  users s.2 = <[id := u]> (users db) ∧
  tasks s.2 = tasks db ∧
  authMiddleware JWT_SECRET (Some (String.append "Bearer " token)) now
    = inr id ∧
  User_findOne (body_email b) s.2 = (inr (Some (id, u)), s.2).
Proof.
  intros Hkey Hnone He Hne Hpw id u token s. subst s.
  destruct (register_stores_user now salt pw e b db Hnone He Hne Hpw)
    as [-> Hfind].
  pose proof Hkey as Hk. apply str_falsy_false in Hk. rewrite Hk.
  split; [done|]. split; [done|]. split; [done|]. split.
  - unfold token. rewrite guard_accepts_signed by done.
    by destruct (Z.leb_spec (now / 1000 + 3600) (now / 1000)); [lia|].
  - by apply User_findOne_run.
Qed.

(** X2: with a secret set, after such a registration a login with the
    same identifier and password is answered 200 with a token for the
    same user and leaves the store as it is, provided bcrypt.compare
    accepts the password against the hash bcrypt.hash made of it; a
    login with a password bcrypt.compare turns down is answered 400
    "Invalid Credentials". *)
Theorem register_then_login (now now' : Z) (salt pw e : string)
    (b : AuthBody) (db : DB) :
  JWT_SECRET ≠ EmptyString →
  User_findOne (body_email b) db = (inr None, db) →
  body_email b = Some e → trim e ≠ EmptyString →
  body_password b = Some pw →
  let db' := (post_auth_register JWT_SECRET now salt b db).2 in
  (bcrypt_compare_str pw (bcrypt_hash_str pw salt) = true →
   post_auth_login JWT_SECRET now' b db'
     = (res_json (JToken (jwt_token (next_oid db) JWT_SECRET now')), db')) ∧
  (∀ pw', bcrypt_compare_str pw' (bcrypt_hash_str pw salt) = false →
     post_auth_login JWT_SECRET now'
       (mkAuthBody (body_email b) (Some pw')) db'
     = (res_status_json 400 (JMessage "Invalid Credentials"), db')).
Proof.
  intros Hkey%str_falsy_false Hnone He Hne Hpw db'. subst db'.
  destruct (register_stores_user now salt pw e b db Hnone He Hne Hpw)
    as [-> Hfind].
  split.
  - intros Hok. rewrite post_auth_login_run. simpl.
    by rewrite Hfind, Hpw; simpl; rewrite Hok, Hkey.
  - intros pw' Hbad. rewrite post_auth_login_run. simpl.
    by rewrite Hfind; simpl; rewrite Hbad.
Qed.

(** X3: with a secret set, a login that User.findOne resolves to a
    stored user and whose password bcrypt.compare accepts is answered
    200 with a token that carries that user's id, passes the guard as
    that user, and leaves the store unchanged; the user found is stored
    and has the trimmed identifier of the request. *)
Theorem login_issues_token_of_user (now : Z) (b : AuthBody) (db : DB)
    (i : ObjectId) (u : User) (pw : string) :
  JWT_SECRET ≠ EmptyString →
  User_findOne (body_email b) db = (inr (Some (i, u)), db) →
  body_password b = Some pw →
  bcrypt_compare_str pw (password u) = true →
  let token := jwt_token i JWT_SECRET now in
  post_auth_login JWT_SECRET now b db = (res_json (JToken token), db) ∧
  jwt_decode token JWT_SECRET
    = Some (mkClaims i (now / 1000) (now / 1000 + 3600)) ∧
  authMiddleware JWT_SECRET (Some (String.append "Bearer " token)) now
    = inr i ∧
  users db !! i = Some u ∧
  ∃ e, body_email b = Some e ∧ email u = trim e.
Proof.
  intros Hkey Hfind%User_findOne_run Hpw Hok token.
  destruct (find_email_Some _ _ _ _ Hfind) as (e & He & Hi & Hu).
  pose proof Hkey as Hk. apply str_falsy_false in Hk.
  rewrite post_auth_login_run, Hfind, Hpw, Hok, Hk.
  split; [done|]. split; [by apply jwt_decode_encode|]. split.
  - unfold token. rewrite guard_accepts_signed by done.
    by destruct (Z.leb_spec (now / 1000 + 3600) (now / 1000)); [lia|].
  - eauto.
Qed.

(** X23: without a secret (JWT_SECRET empty or not set) no route ever
    hands out a token.  A registration that passes every check still
    stores the new user and is then answered 500 "Server error during
    registration", so the identifier is taken although the caller was
    told the registration failed; a login with the right password is
    answered 500 "Server error during login". *)
Theorem no_secret_no_token :
  JWT_SECRET = EmptyString →
  (∀ now r db st token db',
     app JWT_SECRET now r db ≠ (mkResponse st (JToken token), db')) ∧
  (∀ now salt pw e b db,
     User_findOne (body_email b) db = (inr None, db) →
     body_email b = Some e → trim e ≠ EmptyString →
     body_password b = Some pw →
     let s := post_auth_register JWT_SECRET now salt b db in
     s.1 = res_status_json 500 (JMessage "Server error during registration")
     ∧ users s.2
       = <[next_oid db :=
             mkUser (trim e) (bcrypt_hash_str pw salt) now now]> (users db)
     ∧ ∀ now' salt',
         post_auth_register JWT_SECRET now' salt' b s.2
         = (res_status_json 400 (JMessage "User already exists"), s.2)) ∧
  (∀ now b db i u pw,
     User_findOne (body_email b) db = (inr (Some (i, u)), db) →
     body_password b = Some pw →
     bcrypt_compare_str pw (password u) = true →
     post_auth_login JWT_SECRET now b db
     = (res_status_json 500 (JMessage "Server error during login"), db)).
Proof.
  intros Hkey. split; [|split].
  - intros now r db st token db' [Hne _]%app_token. done.
  - intros now salt pw e b db Hnone He Hne Hpw s. subst s.
    destruct (register_stores_user now salt pw e b db Hnone He Hne Hpw)
      as [-> Hfind].
    rewrite Hkey. split; [done|]. split; [done|].
    intros now' salt'. rewrite post_auth_register_run. simpl.
    by rewrite Hfind.
  - intros now b db i u pw Hfind%User_findOne_run Hpw Hok.
    by rewrite post_auth_login_run, Hfind, Hpw, Hok, Hkey.
Qed.

(** X4: a token handed out at the instant T passes the guard at the
    instant t exactly when the second of t is less than 3600 seconds
    after the second of T; otherwise the guard answers 401 "Token is not
    valid".  In particular the guard does not look at the issue time: the
    token also passes at instants before T. *)
Theorem token_accepted_until_expiry (T t : Z) (r : Request) (db db' : DB)
    (st : Z) (token : string) :
  app JWT_SECRET T r db = (mkResponse st (JToken token), db') →
  ∃ uid,
    (t / 1000 < T / 1000 + 3600 →
     authMiddleware JWT_SECRET (Some (String.append "Bearer " token)) t
       = inr uid) ∧
    (T / 1000 + 3600 ≤ t / 1000 →
     authMiddleware JWT_SECRET (Some (String.append "Bearer " token)) t
       = inl (res_status_json 401 (JMessage "Token is not valid"))).
Proof.
  intros [Hkey [uid ->]]%app_token. exists uid.
  rewrite guard_accepts_signed by done.
  destruct (Z.leb_spec (T / 1000 + 3600) (t / 1000)); split; [lia|done|done|lia].
Qed.

(** X5: the guard's verdict on a header only gets worse with time: a
    header that passes at the instant t2 passes, with the same identity,
    at every earlier instant t1, so a header turned down once is turned
    down ever after. *)
Theorem guard_monotone_in_time (h : option string) (t1 t2 : Z)
    (uid : ObjectId) :
  t1 ≤ t2 →
  authMiddleware JWT_SECRET h t2 = inr uid →
  authMiddleware JWT_SECRET h t1 = inr uid.
Proof.
  intros Hle. unfold authMiddleware.
  destruct h as [s|]; [|done]. destruct (str_falsy s); [done|].
  destruct (str_falsy (js_replace "Bearer " "" s)); [done|].
  unfold jwt_verify.
  destruct (jwt_decode _ JWT_SECRET) as [c|]; [|done].
  assert (t1 / 1000 ≤ t2 / 1000) by (apply Z.div_le_mono; lia).
  destruct (Z.leb_spec (exp c) (t2 / 1000)); [done|].
  by destruct (Z.leb_spec (exp c) (t1 / 1000)); [lia|].
Qed.

(** X6: when the guard itself answers a request to a route behind it,
    that answer is the whole response: status 401 with a message, never
    a list or a task, and the store is exactly as it was; the route's
    handler does not run. *)
Theorem guard_rejection_is_final (now : Z) (r : Request)
    (a : option string) (resp : Response) (db : DB) :
  authorization r = Some a →
  authMiddleware JWT_SECRET a now = inl resp →
  app JWT_SECRET now r db = (resp, db) ∧
  status resp = 401 ∧ ∃ m, json resp = JMessage m.
Proof.
  intros Hr Ha. split; [|by eapply authMiddleware_inl].
  destruct r; simplify_eq/=; unfold protected; by rewrite Ha.
Qed.

(** X7: the login route and the listing route never write: whatever the
    body or the header, and whatever they answer, the store after the
    request is the store before it. *)
Theorem login_and_list_read_only (now : Z) (b : AuthBody)
    (a : option string) (db : DB) :
  (app JWT_SECRET now (PostAuthLogin b) db).2 = db ∧
  (app JWT_SECRET now (GetTasks a) db).2 = db.
Proof.
  split; simpl.
  - rewrite post_auth_login_run. by repeat case_match.
  - unfold protected. by destruct (authMiddleware JWT_SECRET a now).
Qed.

Lemma app_users_persist (now : Z) (r : Request) (db : DB) (i : ObjectId)
    (u : User) :
  fresh_oid db → users db !! i = Some u →
  users (app JWT_SECRET now r db).2 !! i = Some u.
Proof.
  intros [Hfresh _] Hi.
  destruct (app_users JWT_SECRET now r db) as [->|(v & -> & _)]; [done|].
  rewrite lookup_insert_ne; [done|]. apply Hfresh in Hi. lia.
Qed.

(** X8: no route changes or removes a user record: in a store whose ids
    all came from new ObjectId(), a user stored before a sequence of
    requests is stored, unchanged, after it. *)
Theorem users_never_change (rs : list (Z * Request)) (db : DB)
    (i : ObjectId) (u : User) :
  fresh_oid db → users db !! i = Some u →
  users (serve JWT_SECRET rs db) !! i = Some u.
Proof.
  revert db. induction rs as [|[now r] rs IH]; intros db Hfresh Hi; [done|].
  simpl. apply IH; [by apply app_fresh_oid|by apply app_users_persist].
Qed.

(** X9: in a store whose ids all came from new ObjectId(), a stored task
    is changed or removed by a request only if the request goes to a
    route behind the guard and its header passes the guard with the
    identity of the task's owner. *)
Theorem task_changes_need_owner_token (now : Z) (r : Request) (db : DB)
    (j : ObjectId) (t : Task) :
  fresh_oid db → tasks db !! j = Some t →
  tasks (app JWT_SECRET now r db).2 !! j ≠ Some t →
  ∃ a, authorization r = Some a ∧
       authMiddleware JWT_SECRET a now = inr (user t).
Proof.
  intros [_ Hfresh] Hj. pose proof (Hfresh j t Hj) as Hlt.
  destruct r as [salt b|b|a|a b|a id b|a id]; simpl; unfold protected;
    try (destruct (authMiddleware JWT_SECRET a now) as [?|uid] eqn:Ha;
         [done|]);
    rewrite ?post_auth_register_run, ?post_auth_login_run, ?get_tasks_run,
      ?post_tasks_run, ?patch_tasks_id_run, ?delete_tasks_id_run.
  - by repeat case_match.
  - by repeat case_match.
  - done.
  - repeat case_match; simpl; try done.
    rewrite lookup_insert_ne; [done|lia].
  - destruct id as [i|]; [|done]. destruct (update_error b); [done|].
    destruct (find_owned i uid db) as [t0|] eqn:Hf; [|done]. simpl.
    apply find_owned_Some in Hf as [Hi Hu].
    destruct (decide (i = j)) as [->|Hne].
    + intros _. exists a. split; [done|]. congruence.
    + by rewrite lookup_insert_ne.
  - destruct id as [i|]; [|done].
    destruct (find_owned i uid db) as [t0|] eqn:Hf; [|done]. simpl.
    apply find_owned_Some in Hf as [Hi Hu].
    destruct (decide (i = j)) as [->|Hne].
    + intros _. exists a. split; [done|]. congruence.
    + by rewrite lookup_delete_ne.
Qed.

(** X10: the owner's DELETE on a stored task is answered 200 "Task
    deleted successfully" and removes that task and nothing else; after
    it, the task is in nobody's list and a further DELETE on the same
    id, by anyone who passes the guard, is answered 404 and changes
    nothing. *)
Theorem delete_own_task (h : option string) (now : Z) (uid i : ObjectId)
    (t : Task) (db : DB) :
  authMiddleware JWT_SECRET h now = inr uid →
  tasks db !! i = Some t → user t = uid →
  let s := app JWT_SECRET now (DeleteTasksId h (Some i)) db in
  s.1 = res_json (JMessage "Task deleted successfully") ∧
  tasks s.2 = delete i (tasks db) ∧ users s.2 = users db ∧
  (∀ h' now' uid',
     authMiddleware JWT_SECRET h' now' = inr uid' →
     app JWT_SECRET now' (DeleteTasksId h' (Some i)) s.2
       = (res_status_json 404 (JMessage "Task not found or unauthorized"),
          s.2) ∧
     ∃ l, app JWT_SECRET now' (GetTasks h') s.2 = (res_json (JTasks l), s.2)
          ∧ ∀ t', (i, t') ∉ l).
Proof.
  intros Ha Hi Hu s. subst s.
  rewrite (app_DeleteTasksId _ _ _ _ _ _ Ha), delete_tasks_id_run.
  assert (find_owned i uid db = Some t) as -> by by apply find_owned_Some.
  split; [done|]. split; [done|]. split; [done|].
  intros h' now' uid' Ha'. split.
  - rewrite (app_DeleteTasksId _ _ _ _ _ _ Ha'), delete_tasks_id_run.
    rewrite find_owned_missing; [done|]. simpl. apply lookup_delete_eq.
  - rewrite (app_GetTasks _ _ _ _ _ Ha'), get_tasks_run.
    eexists. split; [done|]. intros t'.
    rewrite merge_sort_Permutation.
    rewrite (elem_of_matching (λ t, user t = uid')). simpl.
    rewrite lookup_delete_eq. by intros [? _].
Qed.

(** X11: in a store whose ids all came from new ObjectId(), after a POST
    with a title that is not empty after trimming, the caller's list
    holds exactly the new task (trimmed title, completed = false, the
    caller as owner) and the caller's tasks from before. *)
Theorem create_then_list (h : option string) (now now' : Z)
    (uid : ObjectId) (b : TaskBody) (s : string) (db : DB) :
  fresh_oid db →
  authMiddleware JWT_SECRET h now = inr uid →
  authMiddleware JWT_SECRET h now' = inr uid →
  body_title b = Value s → trim s ≠ EmptyString →
  let db' := (app JWT_SECRET now (PostTasks h b) db).2 in
  ∃ l, app JWT_SECRET now' (GetTasks h) db' = (res_json (JTasks l), db') ∧
       ∀ i t, (i, t) ∈ l ↔
              (i = next_oid db ∧ t = mkTask (trim s) false uid now now) ∨
              (tasks db !! i = Some t ∧ user t = uid).
Proof.
  intros [_ Hfresh] Ha Ha' Hs Hne%str_falsy_false db'. subst db'.
  rewrite (app_PostTasks _ _ _ _ _ _ Ha), post_tasks_run, Hs, Hne.
  rewrite (app_GetTasks _ _ _ _ _ Ha'), get_tasks_run.
  eexists. split; [done|]. intros i t.
  rewrite merge_sort_Permutation.
  rewrite (elem_of_matching (λ t, user t = uid)). simpl.
  rewrite lookup_insert_Some. split.
  - intros [[[<- <-]|[Hi Hl]] Hu]; [by left|by right].
  - intros [[-> ->]|[Hi Hu]]; [by split; [left|]|].
    split; [|done]. right. split; [|done].
    apply Hfresh in Hi. lia.
Qed.

(** X12: an id segment that cannot be cast to an ObjectId is answered
    400 by the PATCH route and 500 by the DELETE route, whatever the
    body and whoever the caller; neither touches the store. *)
Theorem malformed_id_statuses (h : option string) (now : Z)
    (uid : ObjectId) (b : TaskBody) (db : DB) :
  authMiddleware JWT_SECRET h now = inr uid →
  app JWT_SECRET now (PatchTasksId h None b) db
    = (res_status_json 400 (JErrMessage (CastError "_id")), db) ∧
  app JWT_SECRET now (DeleteTasksId h None) db
    = (res_status_json 500 (JErrMessage (CastError "_id")), db).
Proof.
  intros Ha.
  by rewrite (app_PatchTasksId _ _ _ _ _ _ _ Ha), patch_tasks_id_run,
    (app_DeleteTasksId _ _ _ _ _ _ Ha), delete_tasks_id_run.
Qed.




(** X14: no route answers with a status outside its list: register
    201, 400 or 500; login 200, 400 or 500; the listing 200, 401 or 500;
    create 201, 400 or 401; PATCH 200, 400, 401 or 404; DELETE 200, 401,
    404 or 500. *)
Theorem route_status_codes (now : Z) (r : Request) (db : DB) :
  let st := status (app JWT_SECRET now r db).1 in
  match r with
  | PostAuthRegister _ _ => st = 201 ∨ st = 400 ∨ st = 500
  | PostAuthLogin _ => st = 200 ∨ st = 400 ∨ st = 500
  | GetTasks _ => st = 200 ∨ st = 401 ∨ st = 500
  | PostTasks _ _ => st = 201 ∨ st = 400 ∨ st = 401
  | PatchTasksId _ _ _ => st = 200 ∨ st = 400 ∨ st = 401 ∨ st = 404
  | DeleteTasksId _ _ => st = 200 ∨ st = 401 ∨ st = 404 ∨ st = 500
  end.
Proof.
  destruct r as [salt b|b|a|a b|a id b|a id]; simpl; unfold protected;
    try (destruct (authMiddleware JWT_SECRET a now) as [resp|uid] eqn:Ha;
         [apply authMiddleware_inl in Ha as [Hst _]; simpl; rewrite Hst;
          lia|]);
    rewrite ?post_auth_register_run, ?post_auth_login_run, ?get_tasks_run,
      ?post_tasks_run, ?patch_tasks_id_run, ?delete_tasks_id_run;
    repeat case_match; simpl; lia.
Qed.


End RouteProperties.

(* ===================================================================== *)
(*                      Properties of the client                          *)
(* ===================================================================== *)

Section ClientProperties.
Context {jwt : JwtLib} {bcrypt : BcryptLib}.
Variable JWT_SECRET : string.
Variable err_message : Exn → string.

Lemma getConfig_token (c : App.State) (tk : string) :
  App.token c = Some tk →
  App.getConfig c = Some (String.append "Bearer " tk).
Proof. unfold App.getConfig. by intros ->. Qed.

Lemma guard_pass_nonempty (tk : string) (now : Z) (uid : ObjectId) :
  authMiddleware JWT_SECRET (Some (String.append "Bearer " tk)) now
    = inr uid →
  str_falsy tk = false.
Proof. rewrite authMiddleware_Bearer. by destruct (str_falsy tk). Qed.

Lemma axios_rejects_401 (r : Response) :
  status r = 401 → App.axios_ok r = false ∧ (status r =? 401) = true.
Proof. unfold App.axios_ok. by intros ->. Qed.

Lemma fetchTasks_accepted (c : App.State) (tk : string) (now : Z)
    (uid : ObjectId) (db : DB) :
  App.token c = Some tk →
  authMiddleware JWT_SECRET (App.getConfig c) now = inr uid →
  App.fetchTasks JWT_SECRET now (c, db)
  = (App.setTasks
       (JTasks (merge_sort newer_first
                  (matching (λ t, user t = uid) (tasks db)))) c, db).
Proof.
  intros Htk Ha. unfold App.fetchTasks. rewrite Htk.
  pose proof Ha as Hne. rewrite (getConfig_token c tk Htk) in Hne.
  apply guard_pass_nonempty in Hne. rewrite Hne.
  by rewrite (app_GetTasks _ _ _ _ _ Ha), get_tasks_run.
Qed.

Lemma fetchTasks_rejected (c : App.State) (tk : string) (now : Z)
    (resp : Response) (db : DB) :
  App.token c = Some tk → str_falsy tk = false →
  authMiddleware JWT_SECRET (App.getConfig c) now = inl resp →
  App.fetchTasks JWT_SECRET now (c, db) = (App.handleLogout c, db).
Proof.
  intros Htk Hne Ha. unfold App.fetchTasks. rewrite Htk, Hne.
  simpl. unfold protected. rewrite Ha.
  apply authMiddleware_inl in Ha as [Hst _].
  by destruct (axios_rejects_401 resp Hst) as [-> ->].
Qed.

(** X16: toggleTask(id, done) in the client, with a token that passes
    the guard as the task's owner, sets completed on the server to the
    opposite of the flag done it is called with, which is the flag of
    the client's list and not the stored one: the stored flag flips when
    done agrees with it and stays as it is when done is stale.  Title,
    owner and creation time are kept, no other task and no user
    changes, and the list the client then shows holds exactly the
    caller's tasks as they are stored after the change. *)
Theorem client_toggle_sets_opposite_of_flag (c : App.State) (tk : string)
    (now now' : Z) (uid i : ObjectId) (t : Task) (done : bool) (db : DB) :
  App.token c = Some tk →
  authMiddleware JWT_SECRET (App.getConfig c) now = inr uid →
  authMiddleware JWT_SECRET (App.getConfig c) now' = inr uid →
  tasks db !! i = Some t → user t = uid →
  let w := App.toggleTask JWT_SECRET now now' i done (c, db) in
  tasks w.2 !! i
    = Some (mkTask (title t) (negb done) (user t) (createdAt t) now) ∧
  (done = completed t →
   completed <$> tasks w.2 !! i = Some (negb (completed t))) ∧
  (done ≠ completed t →
   completed <$> tasks w.2 !! i = Some (completed t)) ∧
  (∀ j, j ≠ i → tasks w.2 !! j = tasks db !! j) ∧
  users w.2 = users db ∧
  ∃ l, w.1 = App.setTasks (JTasks l) c ∧
       ∀ j t', (j, t') ∈ l ↔ tasks w.2 !! j = Some t' ∧ user t' = uid.
Proof.
  intros Htk Ha Ha' Hi Hu w. subst w. unfold App.toggleTask.
  rewrite (app_PatchTasksId _ _ _ _ _ _ _ Ha).
  rewrite (patch_owned uid now i _ db t) by done.
  change (App.axios_ok _) with true. cbv iota.
  rewrite (fetchTasks_accepted c tk now' uid _ Htk Ha'). simpl.
  rewrite lookup_insert_eq. simpl.
  split; [done|]. split; [by intros ->|].
  split; [by destruct done, (completed t)|].
  split; [by intros j Hj; rewrite lookup_insert_ne|].
  split; [done|]. eexists. split; [done|]. intros j t'.
  rewrite merge_sort_Permutation.
  apply (elem_of_matching (λ t, user t = uid)).
Qed.

(** X17: adding a task in the client.  With a title that is empty after
    trimming nothing is sent: client and store stay as they are.
    Otherwise, with a token that passes the guard, the server stores a
    new task with the trimmed title, completed = false and the caller
    as owner, the input is cleared, and the list the client then shows
    holds the new task and exactly the caller's stored tasks. *)
Theorem client_add_task (c : App.State) (now now' : Z) (db : DB) :
  (trim (App.newTaskTitle c) = EmptyString →
   App.addTask JWT_SECRET now now' (c, db) = (c, db)) ∧
  (∀ tk uid,
     trim (App.newTaskTitle c) ≠ EmptyString →
     App.token c = Some tk →
     authMiddleware JWT_SECRET (App.getConfig c) now = inr uid →
     authMiddleware JWT_SECRET (App.getConfig c) now' = inr uid →
     let w := App.addTask JWT_SECRET now now' (c, db) in
     let task := mkTask (trim (App.newTaskTitle c)) false uid now now in
     tasks w.2 = <[next_oid db := task]> (tasks db) ∧
     users w.2 = users db ∧
     ∃ l, w.1 = App.setTasks (JTasks l) (App.setNewTaskTitle "" c) ∧
          (next_oid db, task) ∈ l ∧
          ∀ j t', (j, t') ∈ l ↔ tasks w.2 !! j = Some t' ∧ user t' = uid).
Proof.
  split.
  - intros Hblank. unfold App.addTask. by rewrite Hblank.
  - intros tk uid Hne%str_falsy_false Htk Ha Ha' w task. subst w.
    unfold App.addTask. rewrite Hne.
    rewrite (app_PostTasks _ _ _ _ _ _ Ha), post_tasks_run.
    cbn [body_title]. rewrite Hne.
    change (App.axios_ok _) with true. cbv beta iota zeta.
    rewrite (fetchTasks_accepted (App.setNewTaskTitle "" c) tk now' uid _
               Htk Ha').
    simpl.
    split; [done|]. split; [done|]. eexists. split; [done|].
    assert (Hmem : ∀ j t',
              (j, t') ∈ merge_sort newer_first
                 (matching (λ t, user t = uid)
                    (<[next_oid db := task]> (tasks db))) ↔
              <[next_oid db := task]> (tasks db) !! j = Some t'
              ∧ user t' = uid).
    { intros j t'. rewrite merge_sort_Permutation.
      apply (elem_of_matching (λ t, user t = uid)). }
    split; [|exact Hmem]. apply Hmem. by rewrite lookup_insert_eq.
Qed.

(** X18: with a token the guard turns down (expired, say), fetching the
    list logs the client out: the token is dropped from the state and
    from localStorage and the list is emptied.  Adding, toggling and
    deleting with such a token change nothing, neither the client's
    state nor the store. *)
Theorem client_rejected_token (c : App.State) (tk : string)
    (now now' : Z) (resp : Response) (i : ObjectId) (done : bool)
    (db : DB) :
  App.token c = Some tk → str_falsy tk = false →
  authMiddleware JWT_SECRET (App.getConfig c) now = inl resp →
  App.fetchTasks JWT_SECRET now (c, db)
    = (App.mkState None (App.isLoginView c) (App.authData c) (JTasks [])
         (App.newTaskTitle c) (App.authError c) None, db) ∧
  App.addTask JWT_SECRET now now' (c, db) = (c, db) ∧
  App.toggleTask JWT_SECRET now now' i done (c, db) = (c, db) ∧
  App.deleteTask JWT_SECRET now now' i (c, db) = (c, db).
Proof.
  intros Htk Hne Ha.
  split; [by rewrite (fetchTasks_rejected c tk now resp db Htk Hne Ha)|].
  pose proof (authMiddleware_inl _ _ _ _ Ha) as [Hst _].
  destruct (axios_rejects_401 resp Hst) as [Hax _].
  unfold App.addTask, App.toggleTask, App.deleteTask. simpl.
  unfold protected. rewrite Ha, Hax.
  by destruct (str_falsy (trim (App.newTaskTitle c))).
Qed.

(** X19: with a secret set on the server, submitting the auth form ends
    in one of two ways.  It fails: the token, localStorage, the form and
    the server's tasks are as before, the server's users are as before
    whenever an answer arrived or the request was not delivered, and the
    error shown is one of the server's four messages when an answer
    arrived and the fallback "Authentication failed." when none did.  Or
    an answer arrived and it succeeds: the token is put in the state and
    in localStorage, the form and the error are cleared, and the token
    passes the guard at that instant. *)
Theorem client_auth_submit_outcomes (net : App.Network) (c : App.State)
    (now : Z) (salt : string) (db : DB) :
  JWT_SECRET ≠ EmptyString →
  let w := App.handleAuthSubmit JWT_SECRET err_message net now salt (c, db) in
  (tasks w.2 = tasks db ∧
   (net ≠ App.AnswerLost → users w.2 = users db) ∧
   App.token w.1 = App.token c ∧
   App.localStorage_token w.1 = App.localStorage_token c ∧
   App.authData w.1 = App.authData c ∧
   match net with
   | App.Answered =>
       App.authError w.1 = "User already exists" ∨
       App.authError w.1 = "Invalid Credentials" ∨
       App.authError w.1 = "Server error during registration" ∨
       App.authError w.1 = "Server error during login"
   | _ => App.authError w.1 = "Authentication failed."
   end)
  ∨
  (net = App.Answered ∧
   ∃ uid,
     App.token w.1 = Some (jwt_token uid JWT_SECRET now) ∧
     App.localStorage_token w.1 = Some (jwt_token uid JWT_SECRET now) ∧
     App.authData w.1 = App.mkAuthData "" "" ∧
     App.authError w.1 = "" ∧
     authMiddleware JWT_SECRET (App.getConfig w.1) now = inr uid).
Proof.
  intros Hkey w. subst w. unfold App.handleAuthSubmit.
  assert (Hguard : ∀ uid,
            authMiddleware JWT_SECRET
              (Some (String.append "Bearer " (jwt_token uid JWT_SECRET now)))
              now = inr uid).
  { intros uid. rewrite guard_accepts_signed by done.
    by destruct (Z.leb_spec (now / 1000 + 3600) (now / 1000)); [lia|]. }
  pose proof Hkey as Hk. apply str_falsy_false in Hk.
  destruct net.
  - destruct (App.isLoginView c); cbn [app].
    + rewrite post_auth_login_run. cbn [body_email body_password].
      destruct (find_email _ _) as [[i u]|]; [|left; simpl; tauto].
      destruct (bcrypt_compare_str _ _); [|left; simpl; tauto].
      rewrite Hk. right. split; [done|]. exists i. simpl.
      repeat split; try done. apply Hguard.
    + rewrite post_auth_register_run. cbn [body_email body_password].
      destruct (find_email _ _) as [?|]; [left; simpl; tauto|].
      destruct (str_falsy (trim _)); [left; simpl; tauto|].
      rewrite Hk. right. split; [done|]. exists (next_oid db). simpl.
      repeat split; try done. apply Hguard.
  - left. simpl. by repeat split.
  - left. split; [|by repeat split].
    destruct (App.isLoginView c); cbn [app snd].
    + rewrite post_auth_login_run. by repeat case_match.
    + rewrite post_auth_register_run. by repeat case_match.
Qed.

(** X20: with a secret set on the server, logging in from the logged-out
    client with an identifier the server resolves and a password
    bcrypt.compare accepts, the answer arriving, followed by the effect
    on the token while the token is within its hour, leaves the store as
    it was, holds the token of that user, and shows exactly the tasks
    owned by that user. *)
Theorem client_login_shows_own_tasks (c : App.State) (now now' : Z)
    (salt : string) (db : DB) (i : ObjectId) (u : User) :
  JWT_SECRET ≠ EmptyString →
  App.isLoginView c = true → App.token c = None →
  User_findOne (Some (App.email (App.authData c))) db
    = (inr (Some (i, u)), db) →
  bcrypt_compare_str (App.password (App.authData c)) (password u) = true →
  now' / 1000 < now / 1000 + 3600 →
  let w := App.useEffect_token JWT_SECRET c now'
             (App.handleAuthSubmit JWT_SECRET err_message App.Answered now
                salt (c, db)) in
  w.2 = db ∧
  App.token w.1 = Some (jwt_token i JWT_SECRET now) ∧
  ∃ l, App.tasks w.1 = JTasks l ∧
       ∀ j t, (j, t) ∈ l ↔ tasks db !! j = Some t ∧ user t = i.
Proof.
  intros Hkey Hview Hout Hfind%User_findOne_run Hok Hlt w. subst w.
  pose proof Hkey as Hk. apply str_falsy_false in Hk.
  unfold App.handleAuthSubmit. rewrite Hview. cbn [app].
  rewrite post_auth_login_run. cbn [body_email body_password].
  rewrite Hfind, Hok, Hk.
  change (App.axios_ok _) with true. cbv beta iota zeta.
  unfold App.useEffect_token. cbn [fst App.token App.setAuthData
    App.setToken App.localStorage_set App.setAuthError]. rewrite Hout.
  rewrite decide_False by done.
  erewrite (fetchTasks_accepted _ (jwt_token i JWT_SECRET now) now' i);
    [|done|].
  - simpl. split; [done|]. split; [done|]. eexists. split; [done|].
    intros j t. rewrite merge_sort_Permutation.
    apply (elem_of_matching (λ t, user t = i)).
  - rewrite (getConfig_token _ (jwt_token i JWT_SECRET now)) by done.
    rewrite guard_accepts_signed by done.
    by destruct (Z.leb_spec (now / 1000 + 3600) (now' / 1000)); [lia|].
Qed.

(** X21: deleting a task in the client, with a token that passes the
    guard as the task's owner, removes that task from the store and
    nothing else, and the list the client then shows holds exactly the
    caller's other tasks. *)
Theorem client_delete_removes (c : App.State) (tk : string)
    (now now' : Z) (uid i : ObjectId) (t : Task) (db : DB) :
  App.token c = Some tk →
  authMiddleware JWT_SECRET (App.getConfig c) now = inr uid →
  authMiddleware JWT_SECRET (App.getConfig c) now' = inr uid →
  tasks db !! i = Some t → user t = uid →
  let w := App.deleteTask JWT_SECRET now now' i (c, db) in
  tasks w.2 = delete i (tasks db) ∧ users w.2 = users db ∧
  ∃ l, w.1 = App.setTasks (JTasks l) c ∧
       ∀ j t', (j, t') ∈ l ↔
               j ≠ i ∧ tasks db !! j = Some t' ∧ user t' = uid.
Proof.
  intros Htk Ha Ha' Hi Hu w. subst w. unfold App.deleteTask.
  rewrite (app_DeleteTasksId _ _ _ _ _ _ Ha), delete_tasks_id_run.
  assert (find_owned i uid db = Some t) as -> by by apply find_owned_Some.
  change (App.axios_ok _) with true. cbv beta iota zeta.
  rewrite (fetchTasks_accepted c tk now' uid _ Htk Ha').
  split; [done|]. split; [done|]. eexists. split; [done|].
  intros j t'. rewrite merge_sort_Permutation.
  rewrite (elem_of_matching (λ t, user t = uid)). simpl.
  rewrite lookup_delete_Some. split.
  - intros [[Hne Hj] Hown]. by repeat split; [intros ->| |].
  - intros (Hne & Hj & Hown). by repeat split; [intros ->| |].
Qed.

End ClientProperties.

(* --------------------------------------------------------------------- *)
(* Concrete runs for the further properties                               *)
(* --------------------------------------------------------------------- *)

Lemma register_creates_user_witness :
  (post_auth_register demo_secret 5000 "salt3" carl_body demo_db).1
    = res_status_json 201 (JToken (jwt_token 4%positive demo_secret 5000)) ∧
  users (post_auth_register demo_secret 5000 "salt3" carl_body demo_db).2
    = <[4%positive := carl]> (users demo_db).
Proof.
  pose proof (register_creates_user (jwt := ref_jwt) (bcrypt := ref_bcrypt)
                demo_secret 5000 "salt3" "pw3" "carl@example.org"
                carl_body demo_db) as Hthm.
  cbv zeta in Hthm. destruct Hthm as (Hresp & Husers & _).
  - discriminate.
  - vm_compute; reflexivity.
  - reflexivity.
  - vm_compute; discriminate.
  - reflexivity.
  - split; [exact Hresp|exact Husers].
Defined.

Lemma register_then_login_witness :
  let db' := (post_auth_register demo_secret 5000 "salt3" carl_body
                demo_db).2 in
  post_auth_login demo_secret 6000 carl_body db'
    = (res_json (JToken (jwt_token 4%positive demo_secret 6000)), db') ∧
  post_auth_login demo_secret 6000
    (mkAuthBody (Some "carl@example.org") (Some "guess")) db'
    = (res_status_json 400 (JMessage "Invalid Credentials"), db').
Proof.
  pose proof (register_then_login (jwt := ref_jwt) (bcrypt := ref_bcrypt)
                demo_secret 5000 6000 "salt3" "pw3" "carl@example.org"
                carl_body demo_db) as Hthm.
  cbv zeta in Hthm. destruct Hthm as (Hgood & Hbad).
  - discriminate.
  - vm_compute; reflexivity.
  - reflexivity.
  - vm_compute; discriminate.
  - reflexivity.
  - cbv zeta. split.
    + apply Hgood. vm_compute; reflexivity.
    + apply (Hbad "guess"). vm_compute; reflexivity.
Defined.

Lemma login_issues_token_of_user_witness :
  post_auth_login demo_secret 5000
    (mkAuthBody (Some "ann@example.org") (Some "pw1")) demo_db
  = (res_json (JToken (jwt_token 1%positive demo_secret 5000)), demo_db).
Proof.
  pose proof (login_issues_token_of_user (jwt := ref_jwt)
                (bcrypt := ref_bcrypt) demo_secret 5000
                (mkAuthBody (Some "ann@example.org") (Some "pw1")) demo_db
                1%positive ann "pw1") as Hthm.
  cbv zeta in Hthm. destruct Hthm as (Hresp & _).
  - discriminate.
  - vm_compute; reflexivity.
  - reflexivity.
  - vm_compute; reflexivity.
  - exact Hresp.
Defined.

Lemma no_secret_no_token_witness :
  let s := post_auth_register "" 5000 "salt3" carl_body demo_db in
  s.1 = res_status_json 500 (JMessage "Server error during registration") ∧
  users s.2 = <[4%positive := carl]> (users demo_db) ∧
  post_auth_register "" 6000 "salt4" carl_body s.2
  = (res_status_json 400 (JMessage "User already exists"), s.2) ∧
  post_auth_login "" 5000
    (mkAuthBody (Some "ann@example.org") (Some "pw1")) demo_db
  = (res_status_json 500 (JMessage "Server error during login"), demo_db).
Proof.
  destruct (no_secret_no_token (jwt := ref_jwt) (bcrypt := ref_bcrypt) "")
    as (_ & Hregister & Hlogin); [reflexivity|].
  pose proof (Hregister 5000 "salt3" "pw3" "carl@example.org" carl_body
                demo_db) as Hthm.
  cbv zeta in Hthm. destruct Hthm as (Hresp & Husers & Htaken).
  - vm_compute; reflexivity.
  - reflexivity.
  - vm_compute; discriminate.
  - reflexivity.
  - cbv zeta. split; [exact Hresp|]. split; [exact Husers|].
    split; [exact (Htaken 6000 "salt4")|].
    apply (Hlogin 5000 _ demo_db 1%positive ann "pw1").
    + vm_compute; reflexivity.
    + reflexivity.
    + vm_compute; reflexivity.
Defined.

Lemma token_accepted_until_expiry_witness :
  ∃ uid,
    authMiddleware demo_secret (bearer ann_token) 3599999 = inr uid ∧
    authMiddleware demo_secret (bearer ann_token) 3600000
      = inl (res_status_json 401 (JMessage "Token is not valid")).
Proof.
  edestruct (token_accepted_until_expiry (jwt := ref_jwt)
               (bcrypt := ref_bcrypt) demo_secret 0 3599999
               (PostAuthRegister "salt1"
                  (mkAuthBody (Some "ann@example.org") (Some "pw1")))
               empty_db) as (uid & Hacc & _); [vm_compute; reflexivity|].
  edestruct (token_accepted_until_expiry (jwt := ref_jwt)
               (bcrypt := ref_bcrypt) demo_secret 0 3600000
               (PostAuthRegister "salt1"
                  (mkAuthBody (Some "ann@example.org") (Some "pw1")))
               empty_db) as (uid' & _ & Hrej); [vm_compute; reflexivity|].
  exists uid. split.
  - apply Hacc. vm_compute; reflexivity.
  - apply Hrej. vm_compute; discriminate.
Defined.

Lemma guard_monotone_in_time_witness :
  authMiddleware demo_secret (bearer ann_token) 1000 = inr 1%positive.
Proof.
  apply (guard_monotone_in_time (jwt := ref_jwt) demo_secret
           (bearer ann_token) 1000 5000 1%positive).
  - vm_compute; discriminate.
  - vm_compute; reflexivity.
Defined.

Lemma guard_rejection_is_final_witness :
  app demo_secret 5000 (DeleteTasksId (Some "Bearer junk") (Some 3%positive))
    demo_db
  = (res_status_json 401 (JMessage "Token is not valid"), demo_db).
Proof.
  refine (proj1 (guard_rejection_is_final (jwt := ref_jwt)
                   (bcrypt := ref_bcrypt) demo_secret 5000
                   (DeleteTasksId (Some "Bearer junk") (Some 3%positive))
                   (Some "Bearer junk") _ demo_db _ _)).
  - reflexivity.
  - vm_compute; reflexivity.
Defined.

Lemma users_never_change_witness :
  users (serve demo_secret
           [ (5000, PostAuthRegister "salt3" carl_body);
             (6000, PostAuthRegister "salt4"
                      (mkAuthBody (Some "ann@example.org") (Some "again")));
             (7000, DeleteTasksId (bearer ann_token) (Some 3%positive)) ]
           demo_db) !! 1%positive
  = Some ann.
Proof.
  apply (users_never_change (jwt := ref_jwt) (bcrypt := ref_bcrypt)
           demo_secret).
  - exact (serve_fresh_oid demo_secret demo_requests).
  - vm_compute; reflexivity.
Defined.

Lemma task_changes_need_owner_token_witness :
  ∃ a, authorization
         (PatchTasksId (bearer ann_token) (Some 3%positive)
            (mkTaskBody Absent (Value true) Absent)) = Some a ∧
       authMiddleware demo_secret a 5000 = inr (user buy_milk).
Proof.
  apply (task_changes_need_owner_token (jwt := ref_jwt)
           (bcrypt := ref_bcrypt) demo_secret 5000 _ demo_db 3%positive
           buy_milk).
  - exact (serve_fresh_oid demo_secret demo_requests).
  - vm_compute; reflexivity.
  - vm_compute; discriminate.
Defined.

Lemma delete_own_task_witness :
  (app demo_secret 5000 (DeleteTasksId (bearer ann_token) (Some 3%positive))
     demo_db).1
  = res_json (JMessage "Task deleted successfully") ∧
  tasks (app demo_secret 5000
           (DeleteTasksId (bearer ann_token) (Some 3%positive)) demo_db).2
  = delete 3%positive (tasks demo_db).
Proof.
  pose proof (delete_own_task (jwt := ref_jwt) (bcrypt := ref_bcrypt)
                demo_secret (bearer ann_token) 5000 1%positive 3%positive
                buy_milk demo_db) as Hthm.
  cbv zeta in Hthm. destruct Hthm as (Hresp & Htasks & _).
  - vm_compute; reflexivity.
  - vm_compute; reflexivity.
  - reflexivity.
  - split; [exact Hresp|exact Htasks].
Defined.

Lemma create_then_list_witness :
  ∃ l, (app demo_secret 6000 (GetTasks (bearer ann_token))
          (app demo_secret 5000
             (PostTasks (bearer ann_token)
                (mkTaskBody (Value " Call Bob ") Absent Absent))
             demo_db).2).1
       = res_json (JTasks l) ∧
       (4%positive, mkTask "Call Bob" false 1%positive 5000 5000) ∈ l ∧
       (3%positive, buy_milk) ∈ l.
Proof.
  pose proof (create_then_list (jwt := ref_jwt) (bcrypt := ref_bcrypt)
                demo_secret (bearer ann_token) 5000 6000 1%positive
                (mkTaskBody (Value " Call Bob ") Absent Absent)
                " Call Bob " demo_db) as Hthm.
  cbv zeta in Hthm. destruct Hthm as (l & Hl & Hmem).
  - exact (serve_fresh_oid demo_secret demo_requests).
  - vm_compute; reflexivity.
  - vm_compute; reflexivity.
  - reflexivity.
  - vm_compute; discriminate.
  - exists l. split; [by rewrite Hl|]. split; apply Hmem.
    + left. split; [vm_compute; reflexivity|vm_compute; reflexivity].
    + right. split; [vm_compute; reflexivity|reflexivity].
Defined.

Lemma malformed_id_statuses_witness :
  app demo_secret 5000
    (PatchTasksId (bearer ann_token) None
       (mkTaskBody Absent (Value true) Absent)) demo_db
  = (res_status_json 400 (JErrMessage (CastError "_id")), demo_db) ∧
  app demo_secret 5000 (DeleteTasksId (bearer ann_token) None) demo_db
  = (res_status_json 500 (JErrMessage (CastError "_id")), demo_db).
Proof.
  apply (malformed_id_statuses (jwt := ref_jwt) (bcrypt := ref_bcrypt)
           demo_secret (bearer ann_token) 5000 1%positive).
  vm_compute; reflexivity.
Defined.


Lemma client_toggle_sets_opposite_of_flag_witness :
  tasks (App.toggleTask demo_secret 5000 5001 3%positive false
           (ann_client, demo_db)).2 !! 3%positive
  = Some (mkTask "Buy milk" true 1%positive 2000 5000) ∧
  completed <$>
    tasks (App.toggleTask demo_secret 5000 5001 3%positive true
             (ann_client, demo_db)).2 !! 3%positive
  = Some false.
Proof.
  split.
  - pose proof (client_toggle_sets_opposite_of_flag (jwt := ref_jwt)
                  (bcrypt := ref_bcrypt) demo_secret ann_client ann_token
                  5000 5001 1%positive 3%positive buy_milk false demo_db)
      as Hthm.
    cbv zeta in Hthm. destruct Hthm as (Hstored & _).
    + reflexivity.
    + vm_compute; reflexivity.
    + vm_compute; reflexivity.
    + vm_compute; reflexivity.
    + reflexivity.
    + exact Hstored.
  - pose proof (client_toggle_sets_opposite_of_flag (jwt := ref_jwt)
                  (bcrypt := ref_bcrypt) demo_secret ann_client ann_token
                  5000 5001 1%positive 3%positive buy_milk true demo_db)
      as Hthm.
    cbv zeta in Hthm. destruct Hthm as (_ & _ & Hstale & _).
    + reflexivity.
    + vm_compute; reflexivity.
    + vm_compute; reflexivity.
    + vm_compute; reflexivity.
    + reflexivity.
    + apply Hstale. discriminate.
Defined.

Lemma client_auth_submit_outcomes_witness :
  App.authError
    (App.handleAuthSubmit demo_secret demo_err_message App.NotDelivered
       5000 "unused" (ann_login_form, demo_db)).1
  = "Authentication failed.".
Proof.
  destruct (client_auth_submit_outcomes (jwt := ref_jwt)
              (bcrypt := ref_bcrypt) demo_secret demo_err_message
              App.NotDelivered ann_login_form 5000 "unused" demo_db)
    as [(_ & _ & _ & _ & _ & Herr) | [Hnet _]].
  - discriminate.
  - exact Herr.
  - discriminate Hnet.
Defined.

Lemma client_add_task_witness :
  App.addTask demo_secret 5000 5001
    (App.setNewTaskTitle "   " ann_client, demo_db)
  = (App.setNewTaskTitle "   " ann_client, demo_db) ∧
  tasks (App.addTask demo_secret 5000 5001
           (App.setNewTaskTitle " Call Bob " ann_client, demo_db)).2
  = <[4%positive := mkTask "Call Bob" false 1%positive 5000 5000]>
      (tasks demo_db).
Proof.
  split.
  - apply (client_add_task (jwt := ref_jwt) (bcrypt := ref_bcrypt)
             demo_secret (App.setNewTaskTitle "   " ann_client) 5000 5001
             demo_db).
    vm_compute; reflexivity.
  - pose proof (proj2 (client_add_task (jwt := ref_jwt)
                         (bcrypt := ref_bcrypt) demo_secret
                         (App.setNewTaskTitle " Call Bob " ann_client)
                         5000 5001 demo_db) ann_token 1%positive) as Hthm.
    cbv zeta in Hthm. destruct Hthm as (Hstored & _).
    + vm_compute; discriminate.
    + reflexivity.
    + vm_compute; reflexivity.
    + vm_compute; reflexivity.
    + exact Hstored.
Defined.

Lemma client_rejected_token_witness :
  App.fetchTasks demo_secret 4000000 (ann_client, demo_db)
  = (App.mkState None true (App.mkAuthData "" "") (JTasks []) "" "" None,
     demo_db) ∧
  App.deleteTask demo_secret 4000000 4000001 3%positive
    (ann_client, demo_db)
  = (ann_client, demo_db).
Proof.
  destruct (client_rejected_token (jwt := ref_jwt) (bcrypt := ref_bcrypt)
              demo_secret ann_client ann_token 4000000 4000001
              (res_status_json 401 (JMessage "Token is not valid"))
              3%positive false demo_db) as (Hfetch & _ & _ & Hdelete).
  - reflexivity.
  - vm_compute; reflexivity.
  - vm_compute; reflexivity.
  - split; [exact Hfetch|exact Hdelete].
Defined.

Lemma client_login_shows_own_tasks_witness :
  let w := App.useEffect_token demo_secret ann_login_form 5001
             (App.handleAuthSubmit demo_secret demo_err_message
                App.Answered 5000 "unused" (ann_login_form, demo_db)) in
  w.2 = demo_db ∧
  App.token w.1 = Some (jwt_token 1%positive demo_secret 5000).
Proof.
  pose proof (client_login_shows_own_tasks (jwt := ref_jwt)
                (bcrypt := ref_bcrypt) demo_secret demo_err_message
                ann_login_form 5000 5001 "unused" demo_db 1%positive ann)
    as Hthm.
  cbv zeta in Hthm. destruct Hthm as (Hdb & Htoken & _).
  - discriminate.
  - reflexivity.
  - reflexivity.
  - vm_compute; reflexivity.
  - vm_compute; reflexivity.
  - vm_compute; reflexivity.
  - cbv zeta. split; [exact Hdb|exact Htoken].
Defined.

Lemma client_delete_removes_witness :
  tasks (App.deleteTask demo_secret 5000 5001 3%positive
           (ann_client, demo_db)).2
  = delete 3%positive (tasks demo_db).
Proof.
  pose proof (client_delete_removes (jwt := ref_jwt) (bcrypt := ref_bcrypt)
                demo_secret ann_client ann_token 5000 5001 1%positive
                3%positive buy_milk demo_db) as Hthm.
  cbv zeta in Hthm. destruct Hthm as (Hstored & _).
  - reflexivity.
  - vm_compute; reflexivity.
  - vm_compute; reflexivity.
  - vm_compute; reflexivity.
  - reflexivity.
  - exact Hstored.
Defined.
